(** * bazel/cc_wrapper.py: the compiler wrapper of the Bazel build

    A shallow embedding of [bazel/cc_wrapper.py] and the properties of its
    command-line rewriting.

    The script is a Python 2 program ([#!/usr/bin/python], [str] values
    written with [os.write] and compared with lines read in binary mode), so
    a Python [str] is a byte string: it is modelled by [string], whose
    characters are the 256 values of [ascii].

    Layout of the development:
    - [PyStr]: the [str] and [list] primitives the script uses ([in],
      [startswith], slicing, [str()] of a list, iteration over a file);
    - [Shlex]: [shlex.split] in its default (POSIX) mode;
    - [OS]: the file system and descriptor table, with [tempfile.mkstemp],
      [open], [os.write] and [os.close], in a state-and-exception monad;
    - the script itself: [closing_fd], [sanitize_flagfile], [main];
    - the vocabulary of the properties, then the lemmas and the
      theorems. *)

From Stdlib Require Import Ascii String List Bool Arith Lia.
From stdpp Require Import base option list gmap strings.

Local Open Scope char_scope.

(** ** Python [str] and [list] primitives *)

Module PyStr.

Definition LF : ascii := "010".
Definition TAB : ascii := "009".
Definition CR : ascii := "013".
Definition SPACE : ascii := " ".
Definition BACKSLASH : ascii := "\".
Definition SQUOTE : ascii := "'".
Definition DQUOTE : ascii := "034".

(** [s.startswith(p)] *)
Definition startswith (s p : string) : bool := String.prefix p s.

(** [p in s] on two [str]: [p] occurs in [s] as a contiguous substring. *)
Fixpoint str_in (p s : string) : bool :=
  String.prefix p s ||
  match s with
  | EmptyString => false
  | String _ s' => str_in p s'
  end.

(** [x in l] on a list of [str]. *)
Definition list_in (x : string) (l : list string) : bool :=
  bool_decide (x ∈ l).

(** [s[n:]] *)
Fixpoint slice_from (n : nat) (s : string) : string :=
  match n, s with
  | O, _ => s
  | S _, EmptyString => EmptyString
  | S n', String _ s' => slice_from n' s'
  end.

(** [bool(s)]: a [str] is true when it is not empty. *)
Definition truthy (s : string) : bool :=
  match s with EmptyString => false | String _ _ => true end.

(** Iteration over a file opened in binary mode: the content is cut after
    every line feed, each line keeps its terminator, and a last line
    without terminator is yielded as it is. *)
Fixpoint lines (s : string) : list string :=
  match s with
  | EmptyString => []
  | String c s' =>
      if Ascii.eqb c LF then String c EmptyString :: lines s'
      else match lines s' with
           | [] => [String c EmptyString]
           | l :: ls => String c l :: ls
           end
  end.

(** Concatenation of a list of [str]. *)
Fixpoint join (l : list string) : string :=
  match l with
  | [] => EmptyString
  | s :: l' => s +:+ join l'
  end.

(** *** [repr] of a [str] and [str()] of a list (Python 2, stringobject.c) *)

Definition hex_digit (n : nat) : ascii :=
  match n with
  | 0 => "0" | 1 => "1" | 2 => "2" | 3 => "3" | 4 => "4" | 5 => "5"
  | 6 => "6" | 7 => "7" | 8 => "8" | 9 => "9" | 10 => "a" | 11 => "b"
  | 12 => "c" | 13 => "d" | 14 => "e" | _ => "f"
  end.

Fixpoint has_char (c : ascii) (s : string) : bool :=
  match s with
  | EmptyString => false
  | String d s' => Ascii.eqb d c || has_char c s'
  end.

(** The quote [repr] chooses: a single quote, unless the string holds a
    single quote and no double quote. *)
Definition repr_quote (s : string) : ascii :=
  if has_char SQUOTE s && negb (has_char DQUOTE s) then DQUOTE else SQUOTE.

(** One character of the body of [repr(s)]. *)
Definition repr_char (quote c : ascii) : string :=
  if Ascii.eqb c quote || Ascii.eqb c BACKSLASH then
    String BACKSLASH (String c EmptyString)
  else if Ascii.eqb c TAB then String BACKSLASH (String "t" EmptyString)
  else if Ascii.eqb c LF then String BACKSLASH (String "n" EmptyString)
  else if Ascii.eqb c CR then String BACKSLASH (String "r" EmptyString)
  else if (nat_of_ascii c <? 32)%nat || (127 <=? nat_of_ascii c)%nat then
    String BACKSLASH
      (String "x"
         (String (hex_digit (nat_of_ascii c / 16))
            (String (hex_digit (nat_of_ascii c mod 16)) EmptyString)))
  else String c EmptyString.

Fixpoint repr_body (quote : ascii) (s : string) : string :=
  match s with
  | EmptyString => EmptyString
  | String c s' => repr_char quote c +:+ repr_body quote s'
  end.

Definition repr (s : string) : string :=
  let q := repr_quote s in
  String q (repr_body q s +:+ String q EmptyString).

(** The items of [str(l)], separated by a comma and a space. *)
Fixpoint repr_items (l : list string) : string :=
  match l with
  | [] => EmptyString
  | [s] => repr s
  | s :: l' => repr s +:+ String "," (String SPACE (repr_items l'))
  end.

(** [str(l)] for a list of [str]. *)
Definition str_of_list (l : list string) : string :=
  String "[" (repr_items l +:+ String "]" EmptyString).

End PyStr.

(** ** [shlex.split]

    [shlex.split(s)] builds [shlex(s, posix=True)], sets
    [whitespace_split = True] and [commenters = ''], and collects the tokens
    of [read_token] until the end of the input.  The lexer is the state
    machine of [shlex.read_token]; with these settings its states are the
    four below ([self.state] is [' '], ['a'], a quote character, or the
    escape character with [escapedstate] recording where to return to). *)

Module Shlex.
Import PyStr.

Inductive state :=
| InSpace                       (* self.state == ' ' *)
| InWord                        (* self.state == 'a' *)
| InQuote (q : ascii)           (* self.state in self.quotes *)
| InEscape (escapedstate : option ascii).
    (* self.state in self.escape; [None] is escapedstate == 'a',
       [Some q] is escapedstate == q, a quote *)

Definition is_whitespace (c : ascii) : bool :=
  Ascii.eqb c SPACE || Ascii.eqb c TAB || Ascii.eqb c CR || Ascii.eqb c LF.
Definition is_quote (c : ascii) : bool :=
  Ascii.eqb c SQUOTE || Ascii.eqb c DQUOTE.
Definition is_escape (c : ascii) : bool := Ascii.eqb c BACKSLASH.
Definition is_escapedquote (c : ascii) : bool := Ascii.eqb c DQUOTE.

Definition push (token : string) (c : ascii) : string :=
  token +:+ String c EmptyString.

(** [lex st quoted token input]: the tokens read from [input] when the
    lexer is in state [st] with the partial token [token]; [quoted] is
    the flag of [read_token].  [None] is the [ValueError] raised at the
    end of the input inside a quotation or after an escape character. *)
Fixpoint lex (st : state) (quoted : bool) (token : string) (input : string)
  : option (list string) :=
  match input with
  | EmptyString =>
      match st with
      | InSpace | InWord =>
          if truthy token || quoted then Some [token] else Some []
      | InQuote _ => None       (* No closing quotation *)
      | InEscape _ => None      (* No escaped character *)
      end
  | String c rest =>
      match st with
      | InSpace =>
          if is_whitespace c then
            if truthy token || quoted then
              option_map (cons token) (lex InSpace false EmptyString rest)
            else lex InSpace quoted token rest
          else if is_escape c then lex (InEscape None) quoted token rest
          else if is_quote c then lex (InQuote c) quoted token rest
          else lex InWord quoted (String c EmptyString) rest
      | InQuote q =>
          if Ascii.eqb c q then lex InWord true token rest
          else if is_escape c && is_escapedquote q then
            lex (InEscape (Some q)) true token rest
          else lex (InQuote q) true (push token c) rest
      | InEscape None =>
          lex InWord quoted (push token c) rest
      | InEscape (Some q) =>
          if negb (Ascii.eqb c BACKSLASH) && negb (Ascii.eqb c q) then
            lex (InQuote q) quoted (push (push token BACKSLASH) c) rest
          else lex (InQuote q) quoted (push token c) rest
      | InWord =>
          if is_whitespace c then
            if truthy token || quoted then
              option_map (cons token) (lex InSpace false EmptyString rest)
            else lex InSpace quoted token rest
          else if is_quote c then lex (InQuote c) quoted token rest
          else if is_escape c then lex (InEscape None) quoted token rest
          else lex InWord quoted (push token c) rest
      end
  end.

Definition split (s : string) : option (list string) :=
  lex InSpace false EmptyString s.

End Shlex.

Local Close Scope char_scope.

(** The line feed as a one-character [str], and the two lines the
    sanitizer compares with and writes. *)
Definition NL : string := String PyStr.LF EmptyString.
Definition LSTDCXX_LINE : string := "-lstdc++" +:+ NL.
Definition LCXX_LINE : string := "-lc++" +:+ NL.

(** ** The operating system: files, descriptors, [tempfile.mkstemp] *)

Module OS.

(** The exceptions that reach the top level of the script. *)
Inductive exn :=
| ValueError                 (* shlex.split: unbalanced quotation or escape *)
| IOError (path : string)    (* open: no such file *)
| OSError.                   (* bad descriptor, or no usable temporary name *)

(** What the script does to the file system.  The script has no call
    that removes or renames a file, so there is no such event. *)
Inductive event :=
| EvCreate (path : string) (fd : nat)        (* mkstemp: new empty file *)
| EvOpenRead (path : string)                 (* open(path, "rb") *)
| EvWrite (fd : nat) (path : string) (data : string)
| EvClose (fd : nat).

(** [files] maps a path to the content of the file, a path being the name
    of a file as the script writes it; [fds] maps a descriptor open for
    writing to the path of its file; [candidates] is the sequence of names
    the random name generator of [tempfile] yields; [log] is the list of
    the events so far, the most recent first. *)
Record world := World {
  files : gmap string string;
  fds : gmap nat string;
  candidates : list string;
  log : list event
}.

Inductive result (A : Type) :=
| Return (a : A)
| Raise (e : exn).
Arguments Return {A} a.
Arguments Raise {A} e.

(** Computations that read and change the world and may raise. *)
Definition M (A : Type) : Type := world → result A * world.

Definition ret {A} (a : A) : M A := λ w, (Return a, w).
Definition raise {A} (e : exn) : M A := λ w, (Raise e, w).
Definition bind {A B} (k : A → M B) (m : M A) : M B :=
  λ w, match m w with
       | (Return a, w') => k a w'
       | (Raise e, w') => (Raise e, w')
       end.

(** The monad notations of stdpp: [x ← m; k] and [m;; k]. *)
Global Instance M_ret : MRet M := @ret.
Global Instance M_bind : MBind M := @bind.

(** [for x in l: body(x)] *)
Fixpoint for_each {A} (l : list A) (body : A → M unit) : M unit :=
  match l with
  | [] => ret tt
  | x :: l' => body x;; for_each l' body
  end.

(** [for x in l: acc = body(acc, x)]: a loop that updates a local. *)
Fixpoint for_fold {A S} (l : list A) (body : S → A → M S) (acc : S) : M S :=
  match l with
  | [] => ret acc
  | x :: l' => acc' ← body acc x; for_fold l' body acc'
  end.

Definition of_option {A} (e : exn) (o : option A) : M A :=
  match o with Some a => ret a | None => raise e end.

(** The first candidate name that is not the name of a file
    ([_mkstemp_inner] opens with [O_CREAT | O_EXCL] and moves on to the
    next name when the file exists). *)
Fixpoint first_unused (dir suffix : string) (fs : gmap string string)
    (names : list string) : option (string * list string) :=
  match names with
  | [] => None
  | n :: names' =>
      let path := dir +:+ "tmp" +:+ n +:+ suffix in
      match fs !! path with
      | None => Some (path, names')
      | Some _ => first_unused dir suffix fs names'
      end
  end.

(** [tempfile.mkstemp(dir=dir, suffix=suffix)]: creates an empty file
    named [dir], the prefix [tmp], a random name and [suffix], and returns
    a descriptor open on it for writing, with its path.  (Python 2 returns
    the path made absolute; the world has no current directory and the
    path is kept as it is built.) *)
Definition mkstemp (dir suffix : string) : M (nat * string) :=
  λ w, match first_unused dir suffix (files w) (candidates w) with
       | None => (Raise OSError, w)
       | Some (path, names') =>
           let fd := fresh (dom (fds w)) in
           (Return (fd, path),
            {| files := <[path := ""]> (files w);
               fds := <[fd := path]> (fds w);
               candidates := names';
               log := EvCreate path fd :: log w |})
       end.

(** [open(path, "rb")] followed by the iteration over the file: the lines
    of the file.  The file is read as it is when it is opened: the only
    file the script writes while it reads is the one [mkstemp] has just
    created, so the file read is another file, or that one, still empty,
    in which case nothing is read and nothing written. *)
Definition open_lines (path : string) : M (list string) :=
  λ w, match files w !! path with
       | None => (Raise (IOError path), w)
       | Some content =>
           (Return (PyStr.lines content),
            {| files := files w; fds := fds w; candidates := candidates w;
               log := EvOpenRead path :: log w |})
       end.

(** [os.write(fd, data)]: appends [data] to the file [fd] is open on (a
    write to a regular file is taken to write all of [data]). *)
Definition write (fd : nat) (data : string) : M unit :=
  λ w, match fds w !! fd with
       | None => (Raise OSError, w)
       | Some path =>
           (Return tt,
            {| files := <[path := default "" (files w !! path) +:+ data]>
                          (files w);
               fds := fds w; candidates := candidates w;
               log := EvWrite fd path data :: log w |})
       end.

(** [os.close(fd)] *)
Definition close (fd : nat) : M unit :=
  λ w, match fds w !! fd with
       | None => (Raise OSError, w)
       | Some _ =>
           (Return tt,
            {| files := files w; fds := delete fd (fds w);
               candidates := candidates w;
               log := EvClose fd :: log w |})
       end.

End OS.

Import OS.

(** ** The script *)

(** The three values substituted into the script when it is generated
    ([{ENVOY_REAL_CC}], [{ENVOY_REAL_CXX}], [{ENVOY_CXXFLAGS}]). *)
Record config := Config {
  envoy_real_cc : string;
  envoy_real_cxx : string;
  envoy_cxxflags : string
}.

(** [os.execv(path, argv)]: the script ends by replacing the process. *)
Inductive action :=
| Execv (path : string) (argv : list string).

(** [closing_fd]: the body of the [with] block runs on [fd], and [fd] is
    closed whether the body returns or raises. *)
Definition closing_fd {A} (fd : nat) (body : nat → M A) : M A :=
  λ w, match body fd w with
       | (r, w1) =>
           match OS.close fd w1 with
           | (Return _, w2) => (r, w2)
           | (Raise e, w2) => (Raise e, w2)
           end
       end.

(** Lines 24 to 27: the body of the loop of [sanitize_flagfile]. *)
Definition sanitize_body (cfg : config) (out_fd : nat) (line : string) : M unit :=
  if negb (String.eqb line LSTDCXX_LINE) then OS.write out_fd line
  else if PyStr.str_in "-stdlib=libc++" (envoy_cxxflags cfg) then
    OS.write out_fd LCXX_LINE
  else mret tt.

(** [sanitize_flagfile(in_path, out_fd)] *)
Definition sanitize_flagfile (cfg : config) (in_path : string) (out_fd : nat)
  : M unit :=
  in_fp ← open_lines in_path;
  for_each in_fp (sanitize_body cfg out_fd).

(** The probe [sys.argv[1:5] == ["-E", "-xc++", "-", "-v"]]. *)
Definition is_probe (args : list string) : bool :=
  bool_decide (take 4 args = ["-E"; "-xc++"; "-"; "-v"]).

(** Lines 42 to 45: the compiler. *)
Definition select_compiler (cfg : config) (args : list string) : string :=
  if PyStr.list_in "-static-libstdc++" args || PyStr.list_in "-stdlib=libc++" args
  then envoy_real_cxx cfg
  else envoy_real_cc cfg.

(** Line 50: whether the arguments are rewritten. *)
Definition rewrites_args (cfg : config) (args : list string) : bool :=
  PyStr.list_in "-static-libstdc++" args
  || PyStr.str_in "-stdlib=libc++" (envoy_cxxflags cfg).

(** Lines 52 to 55: the list the rewritten arguments are appended to. *)
Definition initial_argv (cfg : config) (args : list string) : M (list string) :=
  if PyStr.truthy (envoy_cxxflags cfg)
     && PyStr.str_in "-std=c++" (PyStr.str_of_list args)
  then of_option ValueError (Shlex.split (envoy_cxxflags cfg))
  else ret [].

(** Lines 57 to 70: the body of the loop over the arguments. *)
Definition rewrite_arg (cfg : config) (argv : list string) (arg : string)
  : M (list string) :=
  if String.eqb arg "-lstdc++" then
    if PyStr.str_in "-stdlib=libc++" (envoy_cxxflags cfg)
    then ret (argv ++ ["-lc++"])
    else ret argv
  else if PyStr.startswith arg "-Wl,@" then
    '(flagfile_fd, flagfile_path) ← mkstemp "./" ".linker-params";
    closing_fd flagfile_fd (λ fd,
      sanitize_flagfile cfg (PyStr.slice_from (String.length "-Wl,@") arg) fd);;
    ret (argv ++ ["-Wl,@" +:+ flagfile_path])
  else ret (argv ++ [arg]).

(** Lines 50 to 72: the argument list before the compiler's own options. *)
Definition build_argv (cfg : config) (args : list string) : M (list string) :=
  if rewrites_args cfg args then
    argv ← initial_argv cfg args;
    for_fold args (rewrite_arg cfg) argv
  else ret args.

(** Lines 75 to 87: the options added for the compiler. *)
Definition compiler_options (compiler : string) : list string :=
  if PyStr.str_in "clang" compiler then
    ["-fno-limit-debug-info"; "-Wthread-safety";
     "-Wgnu-conditional-omitted-operand"]
  else if PyStr.str_in "gcc" compiler || PyStr.str_in "g++" compiler then
    ["-Wno-maybe-uninitialized"]
  else [].

(** [main()], on [args = sys.argv[1:]]. *)
Definition main (cfg : config) (args : list string) : M action :=
  if is_probe args then
    flags ← of_option ValueError (Shlex.split (envoy_cxxflags cfg));
    ret (Execv (envoy_real_cxx cfg) ([envoy_real_cxx cfg] ++ args ++ flags))
  else
    let compiler := select_compiler cfg args in
    argv ← build_argv cfg args;
    ret (Execv compiler ([compiler] ++ argv ++ compiler_options compiler)).

(** *** Configurations and a world for the examples *)

Definition cfg_gcc (cxxflags : string) : config :=
  Config "/usr/bin/gcc" "/usr/bin/g++" cxxflags.
Definition cfg_plain (cxxflags : string) : config :=
  Config "/usr/bin/cc" "/usr/bin/c++" cxxflags.

Definition world0 : world :=
  {| files := {[ "link.params" := "-la" +:+ NL +:+ LSTDCXX_LINE +:+ "-lb" +:+ NL ]};
     fds := ∅; candidates := ["a1"; "b2"; "c3"]; log := [] |}.


(** ** Vocabulary of the properties *)

(** The first character of the pattern [-std=c++]. *)
Definition DASH : ascii := "-"%char.

(** The characters of [p] are all printed as themselves. *)
Fixpoint all_plain (q : ascii) (p : string) : bool :=
  match p with
  | EmptyString => true
  | String h p' =>
      String.eqb (PyStr.repr_char q h) (String h "") && all_plain q p'
  end.

(** A line as the iteration over a file yields it: not empty, with no
    line feed before its last character. *)
Fixpoint one_line (l : string) : bool :=
  match l with
  | EmptyString => false
  | String c EmptyString => true
  | String c l' => negb (Ascii.eqb c PyStr.LF) && one_line l'
  end.

(** The last character of [l] is a line feed. *)
Fixpoint ends_with_line_feed (l : string) : bool :=
  match l with
  | EmptyString => false
  | String c EmptyString => Ascii.eqb c PyStr.LF
  | String c l' => ends_with_line_feed l'
  end.

(** What the loop of [sanitize_flagfile] writes for one line. *)
Definition sanitize_line (cfg : config) (line : string) : list string :=
  if decide (line = LSTDCXX_LINE) then
    if PyStr.str_in "-stdlib=libc++" (envoy_cxxflags cfg) then [LCXX_LINE]
    else []
  else [line].

(** [frame w w']: from [w] to [w'] every file of [w] keeps its content,
    every file created in between is a file that did not exist in [w], and
    every write made in between goes to a file created in between. *)
Definition frame (w w' : world) : Prop :=
  (∀ p c, files w !! p = Some c → files w' !! p = Some c) ∧
  ∃ evs, log w' = evs ++ log w ∧
    (∀ p fd, EvCreate p fd ∈ evs → files w !! p = None) ∧
    (∀ fd p d, EvWrite fd p d ∈ evs → ∃ fd', EvCreate p fd' ∈ evs).

(** What the loop of [main] appends for one argument. *)
Inductive arg_rewrite (cfg : config) : string → list string → Prop :=
| rewrite_drop :
    PyStr.str_in "-stdlib=libc++" (envoy_cxxflags cfg) = false →
    arg_rewrite cfg "-lstdc++" []
| rewrite_swap :
    PyStr.str_in "-stdlib=libc++" (envoy_cxxflags cfg) = true →
    arg_rewrite cfg "-lstdc++" ["-lc++"]
| rewrite_flagfile arg path :
    arg ≠ "-lstdc++" →
    PyStr.startswith arg "-Wl,@" = true →
    arg_rewrite cfg arg ["-Wl,@" +:+ path]
| rewrite_keep arg :
    arg ≠ "-lstdc++" →
    PyStr.startswith arg "-Wl,@" = false →
    arg_rewrite cfg arg [arg].

(** The argument list [main] builds when the arguments are rewritten:
    the initial list, then what each argument is rewritten to, in order. *)
Definition rewritten (cfg : config) (args pre body : list string) : Prop :=
  (if PyStr.truthy (envoy_cxxflags cfg)
      && existsb (PyStr.str_in "-std=c++") args
   then Shlex.split (envoy_cxxflags cfg) = Some pre
   else pre = []) ∧
  ∃ bs, Forall2 (arg_rewrite cfg) args bs ∧ body = concat bs.

(** The arguments the loop appends unchanged. *)
Definition surviving (cfg : config) (args : list string) : list string :=
  if rewrites_args cfg args then
    filter (λ a, a ≠ "-lstdc++" ∧ PyStr.startswith a "-Wl,@" = false) args
  else args.

(** A world with a response file and a descriptor open on an empty file. *)
Definition world_params : world :=
  {| files := {[ "link.params" := "-la" +:+ NL +:+ LSTDCXX_LINE +:+ "-lb" +:+ NL;
                 "out.params" := "" ]};
     fds := {[ 3 := "out.params" ]}; candidates := []; log := [] |}.

(** ** Vocabulary of the further properties *)

(** The lines [sanitize_flagfile] writes for the lines [ls], and the
    content it gives to an empty file for a response file of content
    [content]. *)
Definition sanitized_lines (cfg : config) (ls : list string) : list string :=
  if PyStr.str_in "-stdlib=libc++" (envoy_cxxflags cfg)
  then (λ l, if decide (l = LSTDCXX_LINE) then LCXX_LINE else l) <$> ls
  else filter (λ l, l ≠ LSTDCXX_LINE) ls.

Definition sanitized (cfg : config) (content : string) : string :=
  PyStr.join (sanitized_lines cfg (PyStr.lines content)).

(** The path [mkstemp(dir='./', suffix=".linker-params")] builds from the
    random name [n]. *)
Definition linker_params_path (n : string) : string :=
  "./" +:+ "tmp" +:+ n +:+ ".linker-params".

(** Among the lists appended for the arguments, the references appended
    for the arguments that name a response file. *)
Fixpoint flagfile_refs (args : list string) (bs : list (list string))
  : list string :=
  match args, bs with
  | arg :: args', b :: bs' =>
      (if PyStr.startswith arg "-Wl,@" then b else []) ++ flagfile_refs args' bs'
  | _, _ => []
  end.

(** For an argument [-Wl,@in_path], what is appended is one reference to
    a file that did not exist in [w], named after a candidate name, and
    that has in [w'] the sanitized content of the file [in_path] of [w]. *)
Definition response_file_rewritten (cfg : config) (w w' : world)
    (arg : string) (b : list string) : Prop :=
  ∀ in_path, arg = "-Wl,@" +:+ in_path →
    ∃ n, n ∈ candidates w ∧
         b = ["-Wl,@" +:+ linker_params_path n] ∧
         files w !! linker_params_path n = None ∧
         is_Some (files w' !! linker_params_path n) ∧
         ∀ content, files w !! in_path = Some content →
                    files w' !! linker_params_path n
                    = Some (sanitized cfg content).

(** A list of lines as [PyStr.lines] yields them: every line is a line,
    and every line but the last ends with a line feed. *)
Fixpoint well_formed_lines (ls : list string) : Prop :=
  match ls with
  | [] => True
  | l :: ls' =>
      one_line l = true ∧
      (ls' = [] ∨ ends_with_line_feed l = true) ∧
      well_formed_lines ls'
  end.

(** A flag that [shlex.split] reads as it is written: not empty, without
    white space, quote or backslash. *)
Definition plain_flag_char (c : ascii) : bool :=
  negb (Shlex.is_whitespace c) && negb (Shlex.is_quote c)
  && negb (Shlex.is_escape c).

Fixpoint plain_flag_chars (s : string) : bool :=
  match s with
  | EmptyString => true
  | String c s' => plain_flag_char c && plain_flag_chars s'
  end.

Definition plain_flag (s : string) : bool :=
  PyStr.truthy s && plain_flag_chars s.

(** Flags written one after the other with a space in between. *)
Fixpoint space_separated (flags : list string) : string :=
  match flags with
  | [] => EmptyString
  | [f] => f
  | f :: flags' => f +:+ " " +:+ space_separated flags'
  end.

(** A world with two response files, one of them with a last line that
    has no line feed. *)
Definition world_two_params : world :=
  {| files := {[ "a.params" := "-la" +:+ NL +:+ LSTDCXX_LINE;
                 "b.params" := "-lb" +:+ NL +:+ "-lstdc++" ]};
     fds := {[ 0 := "/dev/stdin" ]};
     candidates := ["x1"; "x2"; "x3"]; log := [] |}.

(** What the loop of [main] appends for an argument that does not name a
    response file. *)
Definition swap_or_drop (cfg : config) (arg : string) : list string :=
  if decide (arg = "-lstdc++") then
    if PyStr.str_in "-stdlib=libc++" (envoy_cxxflags cfg) then ["-lc++"]
    else []
  else [arg].

(** A world with a response file whose last line has no line feed, and
    two descriptors open on two empty files. *)
Definition world_copies : world :=
  {| files := {[ "in.params" := "-la" +:+ NL +:+ LSTDCXX_LINE +:+ "-lstdc++";
                 "one.params" := ""; "two.params" := "" ]};
     fds := {[ 3 := "one.params"; 4 := "two.params" ]};
     candidates := []; log := [] |}.

(** * Properties *)

(** ** The model on examples *)

Example split_flags : Shlex.split "-X -Y" = Some ["-X"; "-Y"].
Proof. reflexivity. Qed.

Example split_quoted :
  Shlex.split "-DNAME='a b'  -O2 ''" = Some ["-DNAME=a b"; "-O2"; ""].
Proof. reflexivity. Qed.

Example split_unbalanced : Shlex.split "-DNAME='a b" = None.
Proof. reflexivity. Qed.

Example lines_keep_terminators :
  PyStr.lines ("-la" +:+ NL +:+ NL +:+ "-lb")
  = ["-la" +:+ NL; NL; "-lb"].
Proof. reflexivity. Qed.

Example str_of_list_example :
  PyStr.str_of_list ["-c"; "it's"; "a\b"]
  = "['-c', " +:+ String PyStr.DQUOTE
      ("it's" +:+ String PyStr.DQUOTE ", 'a\\b']").
Proof. reflexivity. Qed.

Example sanitize_drops :
  files (sanitize_flagfile (cfg_plain "") "link.params" 3 world_params).2
    !! "out.params"
  = Some ("-la" +:+ NL +:+ "-lb" +:+ NL).
Proof. reflexivity. Qed.

Example sanitize_swaps :
  files (sanitize_flagfile (cfg_plain "-stdlib=libc++") "link.params" 3
           world_params).2
    !! "out.params"
  = Some ("-la" +:+ NL +:+ "-lc++" +:+ NL +:+ "-lb" +:+ NL).
Proof. reflexivity. Qed.

Example main_removes_lstdcxx :
  (main (cfg_plain "") ["-static-libstdc++"; "-lstdc++"; "foo.o"] world0).1
  = Return (Execv "/usr/bin/c++"
              ["/usr/bin/c++"; "-static-libstdc++"; "foo.o"]).
Proof. reflexivity. Qed.

Example main_swaps_lstdcxx :
  (main (cfg_plain "-stdlib=libc++")
     ["-static-libstdc++"; "-lstdc++"; "foo.o"] world0).1
  = Return (Execv "/usr/bin/c++"
              ["/usr/bin/c++"; "-static-libstdc++"; "-lc++"; "foo.o"]).
Proof. reflexivity. Qed.

Example main_rewrites_response_file :
  let r := main (cfg_gcc "") ["-static-libstdc++"; "-Wl,@link.params"] world0 in
  r.1 = Return (Execv "/usr/bin/g++"
                  ["/usr/bin/g++"; "-static-libstdc++";
                   "-Wl,@./tmpa1.linker-params"; "-Wno-maybe-uninitialized"]) ∧
  files r.2 !! "./tmpa1.linker-params" = Some ("-la" +:+ NL +:+ "-lb" +:+ NL) ∧
  fds r.2 = ∅.
Proof. repeat split; reflexivity. Qed.

Example main_missing_response_file :
  (main (cfg_gcc "") ["-static-libstdc++"; "-Wl,@nowhere"] world0).1
  = Raise (IOError "nowhere").
Proof. reflexivity. Qed.

(** ** Strings: prefixes and occurrences *)

Lemma append_cons (x : ascii) (a b : string) :
  String x a +:+ b = String x (a +:+ b).
Proof. reflexivity. Qed.

Lemma append_empty_l (b : string) : "" +:+ b = b.
Proof. reflexivity. Qed.

Lemma append_assoc (a b c : string) : (a +:+ b) +:+ c = a +:+ b +:+ c.
Proof.
  induction a as [|x a IH]; [reflexivity|].
  rewrite !append_cons. now f_equal.
Qed.

Lemma append_empty_r (a : string) : a +:+ "" = a.
Proof.
  induction a as [|x a IH]; [reflexivity|].
  rewrite append_cons. now f_equal.
Qed.

Lemma prefix_cons (h c : ascii) (t s : string) :
  String.prefix (String h t) (String c s)
  = bool_decide (h = c) && String.prefix t s.
Proof.
  simpl. destruct (ascii_dec h c) as [->|Hne].
  - now rewrite bool_decide_eq_true_2.
  - now rewrite bool_decide_eq_false_2.
Qed.

Lemma prefix_empty_r (p : string) :
  String.prefix p "" = bool_decide (p = "").
Proof. destruct p; reflexivity. Qed.

Lemma str_in_cons (p : string) (c : ascii) (s : string) :
  PyStr.str_in p (String c s)
  = String.prefix p (String c s) || PyStr.str_in p s.
Proof. reflexivity. Qed.

Lemma has_char_cons_false (c d : ascii) (s : string) :
  PyStr.has_char c (String d s) = false → d ≠ c ∧ PyStr.has_char c s = false.
Proof.
  simpl. intros H. apply orb_false_iff in H as [H1 H2].
  split; [|exact H2]. now apply Ascii.eqb_neq.
Qed.

(** [String.prefix p s] and [PyStr.str_in p s] are what they are named
    after: [s] starts with [p], and [p] occurs in [s]. *)
Lemma prefix_spec (p s : string) :
  String.prefix p s = true ↔ ∃ b, s = p +:+ b.
Proof.
  revert s. induction p as [|h p IH]; intros s.
  - split; [|now destruct s]. intros _. now exists s.
  - destruct s as [|c s].
    + split; [discriminate|]. intros (b & Hb). discriminate.
    + rewrite prefix_cons, andb_true_iff, bool_decide_eq_true, IH. split.
      * intros (-> & b & ->). now exists b.
      * intros (b & Hb). rewrite append_cons in Hb.
        injection Hb as -> ->. eauto.
Qed.

Lemma str_in_spec (p s : string) :
  PyStr.str_in p s = true ↔ ∃ a b, s = a +:+ p +:+ b.
Proof.
  induction s as [|c s IH].
  - cbn [PyStr.str_in]. rewrite orb_false_r, prefix_spec. split.
    + intros (b & Hb). now exists "", b.
    + intros (a & b & Hab). destruct a; [|discriminate]. now exists b.
  - rewrite str_in_cons, orb_true_iff, prefix_spec, IH. split.
    + intros [(b & Hb)|(a & b & Hab)].
      * now exists "", b.
      * exists (String c a), b. now rewrite append_cons, Hab.
    + intros (a & b & Hab). destruct a as [|d a].
      * left. now exists b.
      * right. rewrite append_cons in Hab. injection Hab as -> ->. eauto.
Qed.

(** A character that does not occur in [p] ends every attempt to match [p]:
    a match of [p] cannot run across it. *)
Lemma prefix_barrier (p x y : string) (c : ascii) :
  PyStr.has_char c p = false →
  String.prefix p (x +:+ String c y) = String.prefix p x.
Proof.
  revert x. induction p as [|h p IH]; intros x Hc.
  - now destruct x.
  - apply has_char_cons_false in Hc as [Hne Hc].
    destruct x as [|d x].
    + rewrite append_empty_l, prefix_cons, prefix_empty_r.
      now rewrite bool_decide_eq_false_2.
    + rewrite append_cons, !prefix_cons. now rewrite IH.
Qed.

Lemma str_in_barrier (p x y : string) (c : ascii) :
  p ≠ "" →
  PyStr.has_char c p = false →
  PyStr.str_in p (x +:+ String c y) = PyStr.str_in p x || PyStr.str_in p y.
Proof.
  intros Hp Hc. induction x as [|d x IH].
  - rewrite append_empty_l, str_in_cons.
    rewrite <- (append_empty_l (String c y)) at 1.
    rewrite prefix_barrier by exact Hc.
    destruct p; [congruence | reflexivity].
  - rewrite append_cons, !str_in_cons, IH, <- append_cons.
    rewrite prefix_barrier by exact Hc. now rewrite orb_assoc.
Qed.

(** A character other than the first of [p] cannot start a match. *)
Lemma str_in_skip (h : ascii) (t : string) (c : ascii) (s : string) :
  h ≠ c → PyStr.str_in (String h t) (String c s) = PyStr.str_in (String h t) s.
Proof.
  intros Hne. rewrite str_in_cons, prefix_cons.
  now rewrite bool_decide_eq_false_2.
Qed.

Lemma str_in_empty_r (h : ascii) (t : string) :
  PyStr.str_in (String h t) "" = false.
Proof. reflexivity. Qed.

Lemma str_in_append_r (p x y : string) :
  PyStr.str_in p y = true → PyStr.str_in p (x +:+ y) = true.
Proof.
  intros H. induction x as [|d x IH]; [exact H|].
  rewrite append_cons, str_in_cons, IH. apply orb_true_r.
Qed.

Lemma str_in_skip_many (h : ascii) (p t s : string) :
  PyStr.has_char h t = false →
  PyStr.str_in (String h p) (t +:+ s) = PyStr.str_in (String h p) s.
Proof.
  induction t as [|d t IH]; intros Ht; [reflexivity|].
  apply has_char_cons_false in Ht as [Hne Ht].
  rewrite append_cons, str_in_skip by congruence. auto.
Qed.

(** ** [str()] of the argument list

    [main] looks for [-std=c++] in [str(sys.argv[1:])], the printed form of
    the list, not in the arguments.  The printed form adds brackets,
    quotes, commas and spaces, and writes some characters of an argument
    as an escape sequence that starts with a backslash.  For a pattern
    that starts with a dash and has none of these characters, the pattern
    occurs in the printed list exactly when it occurs in an argument. *)


Lemma hex_digit_not_dash (n : nat) : PyStr.hex_digit n ≠ DASH.
Proof. do 15 (destruct n as [|n]; [discriminate|]). discriminate. Qed.

(** A character is printed as itself, or as a backslash followed by
    characters that are not a dash; a dash is printed as itself. *)
Lemma repr_char_shape (q c : ascii) :
  q ≠ DASH →
  PyStr.repr_char q c = String c ""
  ∨ (c ≠ DASH ∧ ∃ t, t ≠ "" ∧
       PyStr.repr_char q c = String PyStr.BACKSLASH t ∧
       PyStr.has_char DASH t = false).
Proof.
  intros Hq. unfold PyStr.repr_char.
  destruct (Ascii.eqb c q || Ascii.eqb c PyStr.BACKSLASH) eqn:E1.
  { right. apply orb_true_iff in E1 as [E|E]; apply Ascii.eqb_eq in E; subst c.
    - split; [exact Hq|]. eexists; split; [|split; [reflexivity|]].
      + discriminate.
      + simpl. rewrite orb_false_r. now apply Ascii.eqb_neq.
    - split; [discriminate|]. eexists; split; [|split; reflexivity].
      discriminate. }
  destruct (Ascii.eqb c PyStr.TAB) eqn:E2.
  { right. apply Ascii.eqb_eq in E2; subst c. split; [discriminate|].
    eexists; split; [|split; reflexivity]. discriminate. }
  destruct (Ascii.eqb c PyStr.LF) eqn:E3.
  { right. apply Ascii.eqb_eq in E3; subst c. split; [discriminate|].
    eexists; split; [|split; reflexivity]. discriminate. }
  destruct (Ascii.eqb c PyStr.CR) eqn:E4.
  { right. apply Ascii.eqb_eq in E4; subst c. split; [discriminate|].
    eexists; split; [|split; reflexivity]. discriminate. }
  destruct ((nat_of_ascii c <? 32)%nat || (127 <=? nat_of_ascii c)%nat) eqn:E5;
    [|now left].
  right. split.
  { intros ->. discriminate E5. }
  eexists; split; [|split; [reflexivity|]]; [discriminate|].
  cbn [PyStr.has_char].
  now rewrite !(proj2 (Ascii.eqb_neq _ DASH) (hex_digit_not_dash _)).
Qed.

Lemma backslash_not_plain (q : ascii) :
  PyStr.repr_char q PyStr.BACKSLASH ≠ String PyStr.BACKSLASH "".
Proof.
  unfold PyStr.repr_char. rewrite Ascii.eqb_refl, orb_true_r. discriminate.
Qed.

Section PrintedPattern.
Variable q : ascii.
Hypothesis q_not_dash : q ≠ DASH.

Lemma prefix_repr_body (p s : string) :
  all_plain q p = true →
  String.prefix p (PyStr.repr_body q s) = String.prefix p s.
Proof.
  revert s. induction p as [|h p IH]; intros s Hp.
  { now destruct s, (PyStr.repr_body q _). }
  destruct s as [|c s]; [reflexivity|].
  simpl in Hp. apply andb_true_iff in Hp as [Hh Hp].
  apply String.eqb_eq in Hh.
  cbn [PyStr.repr_body].
  destruct (repr_char_shape q c q_not_dash) as [Hc|(_ & t & Ht & Hc & _)];
    rewrite Hc.
  - rewrite append_cons, append_empty_l, !prefix_cons. now rewrite IH.
  - rewrite append_cons, !prefix_cons.
    rewrite (bool_decide_eq_false_2 (h = PyStr.BACKSLASH)).
    + rewrite (bool_decide_eq_false_2 (h = c)); [reflexivity|].
      intros ->. rewrite Hc in Hh. now injection Hh as _ ->.
    + intros ->. now apply (backslash_not_plain q).
Qed.

Lemma str_in_repr_body (t s : string) :
  all_plain q (String DASH t) = true →
  PyStr.str_in (String DASH t) (PyStr.repr_body q s)
  = PyStr.str_in (String DASH t) s.
Proof.
  intros Hp. induction s as [|c s IH]; [reflexivity|].
  pose proof (prefix_repr_body (String DASH t) (String c s) Hp) as Hpre.
  cbn [PyStr.repr_body] in *.
  destruct (repr_char_shape q c q_not_dash) as [Hc|(Hd & u & _ & Hc & Hu)];
    rewrite Hc in *.
  - rewrite append_cons, append_empty_l in *.
    now rewrite !str_in_cons, Hpre, IH.
  - rewrite append_cons.
    rewrite str_in_skip by discriminate.
    rewrite str_in_skip_many by exact Hu.
    rewrite (str_in_skip DASH t c) by congruence. exact IH.
Qed.
End PrintedPattern.

Lemma repr_quote_cases (s : string) :
  PyStr.repr_quote s = PyStr.SQUOTE ∨ PyStr.repr_quote s = PyStr.DQUOTE.
Proof. unfold PyStr.repr_quote. destruct (_ && _); auto. Qed.

Section PrintedList.
Variable t : string.
Local Abbreviation p := (String DASH t).
Hypothesis plain_squote : all_plain PyStr.SQUOTE p = true.
Hypothesis plain_dquote : all_plain PyStr.DQUOTE p = true.
Hypothesis no_squote : PyStr.has_char PyStr.SQUOTE p = false.
Hypothesis no_dquote : PyStr.has_char PyStr.DQUOTE p = false.
Hypothesis no_comma : PyStr.has_char ","%char p = false.
Hypothesis no_close : PyStr.has_char "]"%char p = false.

Lemma str_in_repr (s : string) :
  PyStr.str_in p (PyStr.repr s) = PyStr.str_in p s.
Proof.
  unfold PyStr.repr.
  destruct (repr_quote_cases s) as [-> | ->]; cbv zeta;
    rewrite str_in_skip by discriminate;
    rewrite str_in_barrier by (assumption || discriminate);
    rewrite str_in_empty_r, orb_false_r;
    apply str_in_repr_body; (assumption || discriminate).
Qed.

Lemma str_in_repr_items (l : list string) :
  PyStr.str_in p (PyStr.repr_items l) = existsb (PyStr.str_in p) l.
Proof.
  induction l as [|a l IH]; [reflexivity|].
  destruct l as [|b l].
  - cbn [PyStr.repr_items existsb]. now rewrite str_in_repr, orb_false_r.
  - change (PyStr.repr_items (a :: b :: l))
      with (PyStr.repr a
            +:+ String ","%char (String PyStr.SPACE (PyStr.repr_items (b :: l)))).
    rewrite str_in_barrier by (assumption || discriminate).
    rewrite str_in_skip by discriminate.
    rewrite str_in_repr, IH. reflexivity.
Qed.

Lemma str_in_str_of_list (l : list string) :
  PyStr.str_in p (PyStr.str_of_list l) = existsb (PyStr.str_in p) l.
Proof.
  unfold PyStr.str_of_list. rewrite str_in_skip by discriminate.
  rewrite str_in_barrier by (assumption || discriminate).
  rewrite str_in_empty_r, orb_false_r. apply str_in_repr_items.
Qed.
End PrintedList.

(** The test of line 52 holds exactly when an argument contains
    [-std=c++]. *)
Lemma std_in_printed_args (args : list string) :
  PyStr.str_in "-std=c++" (PyStr.str_of_list args)
  = existsb (PyStr.str_in "-std=c++") args.
Proof. now apply (str_in_str_of_list "std=c++"). Qed.

Lemma existsb_elem_of (f : string → bool) (l : list string) :
  existsb f l = true ↔ ∃ a, a ∈ l ∧ f a = true.
Proof.
  rewrite existsb_exists. split; intros (a & Ha & Hf); exists a;
    (split; [|exact Hf]); now apply list_elem_of_In.
Qed.

Lemma list_in_true (x : string) (l : list string) :
  PyStr.list_in x l = true ↔ x ∈ l.
Proof. unfold PyStr.list_in. apply bool_decide_eq_true. Qed.

Lemma list_in_false (x : string) (l : list string) :
  PyStr.list_in x l = false ↔ x ∉ l.
Proof. unfold PyStr.list_in. apply bool_decide_eq_false. Qed.

(** ** Running computations *)

Lemma bind_run {A B} (m : M A) (k : A → M B) (w : world) :
  (m ≫= k) w = match m w with
               | (Return a, w') => k a w'
               | (Raise e, w') => (Raise e, w')
               end.
Proof. reflexivity. Qed.

Lemma ret_run {A} (a : A) (w : world) : mret (M := M) a w = (Return a, w).
Proof. reflexivity. Qed.

Lemma world_eta (w : world) :
  {| files := files w; fds := fds w; candidates := candidates w;
     log := log w |} = w.
Proof. now destruct w. Qed.

Lemma first_unused_None dir suffix (fs : gmap string string) names path names' :
  first_unused dir suffix fs names = Some (path, names') → fs !! path = None.
Proof.
  induction names as [|n names IH]; simpl; [discriminate|].
  destruct (fs !! (dir +:+ "tmp" +:+ n +:+ suffix)) eqn:E; [exact IH|].
  intros [= <- <-]. exact E.
Qed.

(** ** The response file sanitizer *)

Lemma join_app (l1 l2 : list string) :
  PyStr.join (l1 ++ l2) = PyStr.join l1 +:+ PyStr.join l2.
Proof.
  induction l1 as [|s l1 IH]; [reflexivity|].
  simpl. now rewrite IH, append_assoc.
Qed.

Lemma sanitize_loop cfg fd out (ls : list string) : ∀ w old,
  fds w !! fd = Some out →
  files w !! out = Some old →
  for_each ls (sanitize_body cfg fd) w
  = (Return tt,
     {| files := <[out := old +:+ PyStr.join (ls ≫= sanitize_line cfg)]> (files w);
        fds := fds w; candidates := candidates w;
        log := rev (EvWrite fd out <$> (ls ≫= sanitize_line cfg)) ++ log w |}).
Proof.
  induction ls as [|line ls IH]; intros w old Hfd Hout.
  - cbn. rewrite append_empty_r, insert_id by exact Hout.
    now rewrite world_eta.
  - cbn [for_each]. rewrite bind_run.
    assert (Hstep : ∀ data,
      OS.write fd data w
      = (Return tt,
         {| files := <[out := old +:+ data]> (files w); fds := fds w;
            candidates := candidates w;
            log := EvWrite fd out data :: log w |})).
    { intros data. unfold OS.write. now rewrite Hfd, Hout. }
    unfold sanitize_body at 1.
    rewrite bind_cons. unfold sanitize_line at 1 3.
    destruct (String.eqb_spec line LSTDCXX_LINE) as [->|Hne]; cbn [negb].
    + rewrite decide_True by reflexivity.
      destruct (PyStr.str_in _ _).
      * rewrite Hstep, (IH _ (old +:+ LCXX_LINE)); cbn;
          [|exact Hfd|apply lookup_insert_eq].
        rewrite insert_insert_eq, append_assoc, <- app_assoc. reflexivity.
      * rewrite ret_run. now apply IH.
    + rewrite decide_False by exact Hne.
      rewrite Hstep, (IH _ (old +:+ line)); cbn;
        [|exact Hfd|apply lookup_insert_eq].
      rewrite insert_insert_eq, append_assoc, <- app_assoc. reflexivity.
Qed.

Lemma sanitize_flagfile_run cfg in_path fd out old w :
  fds w !! fd = Some out →
  files w !! out = Some old →
  sanitize_flagfile cfg in_path fd w
  = match files w !! in_path with
    | None => (Raise (IOError in_path), w)
    | Some content =>
        let written := PyStr.lines content ≫= sanitize_line cfg in
        (Return tt,
         {| files := <[out := old +:+ PyStr.join written]> (files w);
            fds := fds w; candidates := candidates w;
            log := rev (EvWrite fd out <$> written)
                   ++ EvOpenRead in_path :: log w |})
    end.
Proof.
  intros Hfd Hout. unfold sanitize_flagfile. rewrite bind_run.
  unfold open_lines. destruct (files w !! in_path) as [content|]; [|reflexivity].
  now rewrite (sanitize_loop cfg fd out _ _ old).
Qed.

(** ** The effect of the script on the file system *)

Lemma frame_refl (w : world) : frame w w.
Proof.
  split; [auto|]. exists []. split; [reflexivity|].
  split; [intros p fd H | intros fd p d H]; inversion H.
Qed.

Lemma frame_trans (w1 w2 w3 : world) :
  frame w1 w2 → frame w2 w3 → frame w1 w3.
Proof.
  intros [F1 (e1 & L1 & C1 & W1)] [F2 (e2 & L2 & C2 & W2)].
  split; [auto|]. exists (e2 ++ e1). split.
  { now rewrite L2, L1, app_assoc. }
  split.
  - intros p fd [H|H]%elem_of_app; [|eauto].
    apply C2 in H.
    destruct (files w1 !! p) as [c|] eqn:E; [|reflexivity].
    apply F1 in E. congruence.
  - intros fd p d [H|H]%elem_of_app.
    + destruct (W2 _ _ _ H) as (fd' & Hc).
      exists fd'. apply elem_of_app. now left.
    + destruct (W1 _ _ _ H) as (fd' & Hc).
      exists fd'. apply elem_of_app. now right.
Qed.

Lemma rewrite_arg_cases cfg argv arg w r w' :
  rewrite_arg cfg argv arg w = (r, w') →
  frame w w' ∧
  ∀ argv', r = Return argv' →
    ∃ b, arg_rewrite cfg arg b ∧ argv' = argv ++ b.
Proof.
  unfold rewrite_arg.
  destruct (String.eqb_spec arg "-lstdc++") as [->|Hne].
  { destruct (PyStr.str_in _ _) eqn:E; intros [= <- <-];
      (split; [apply frame_refl|]); intros argv' [= <-].
    - exists ["-lc++"]. split; [now constructor | reflexivity].
    - exists []. split; [now constructor | now rewrite app_nil_r]. }
  destruct (PyStr.startswith arg "-Wl,@") eqn:Ew.
  2:{ intros [= <- <-]. split; [apply frame_refl|]. intros argv' [= <-].
      exists [arg]. split; [now constructor | reflexivity]. }
  rewrite bind_run. unfold mkstemp.
  destruct (first_unused _ _ _ _) as [[path names']|] eqn:Ef.
  2:{ intros [= <- <-]. split; [apply frame_refl | discriminate]. }
  apply first_unused_None in Ef.
  set (fd := fresh (dom (fds w))).
  rewrite bind_run. unfold closing_fd.
  rewrite (sanitize_flagfile_run cfg _ fd path "")
    by (cbn; apply lookup_insert_eq).
  cbn [files fds candidates log].
  destruct (<[path:=""]> (files w) !! _) as [content|] eqn:Ein;
    cbv zeta; unfold OS.close; cbn [files fds candidates log];
    rewrite lookup_insert_eq; intros [= <- <-]; unfold frame;
    cbn [files log].
  - split.
    + split.
      * intros p c Hp. rewrite !lookup_insert_ne by congruence. exact Hp.
      * eexists (_ :: _ ++ [_; _]). split.
        { cbn. rewrite <- app_assoc. reflexivity. }
        split.
        { intros p fd0 Hin.
          apply elem_of_cons in Hin as [Hin|Hin]; [discriminate|].
          apply elem_of_app in Hin as [Hin|Hin].
          - apply list_elem_of_In, in_rev, list_elem_of_In in Hin.
            apply list_elem_of_fmap in Hin as (x & Hx & _). discriminate.
          - apply elem_of_cons in Hin as [Hin|Hin]; [discriminate|].
            apply list_elem_of_singleton in Hin. now injection Hin as -> ->. }
        intros fd0 p d Hin.
        apply elem_of_cons in Hin as [Hin|Hin]; [discriminate|].
        apply elem_of_app in Hin as [Hin|Hin].
        2:{ apply elem_of_cons in Hin as [Hin|Hin]; [discriminate|].
            apply list_elem_of_singleton in Hin. discriminate. }
        apply list_elem_of_In, in_rev, list_elem_of_In in Hin.
        apply list_elem_of_fmap in Hin as (x & [= -> -> ->] & _).
        exists fd.
        apply elem_of_cons; right. apply elem_of_app; right.
        apply elem_of_cons; right. now apply list_elem_of_singleton.
    + intros argv' [= <-]. eexists. split; [|reflexivity].
      now constructor.
  - split; [|discriminate]. split.
    + intros p c Hp. rewrite lookup_insert_ne by congruence. exact Hp.
    + exists [EvClose fd; EvCreate path fd]. split; [reflexivity|]. split.
      * intros p fd0 Hin.
        apply elem_of_cons in Hin as [Hin|Hin]; [discriminate|].
        apply list_elem_of_singleton in Hin. now injection Hin as -> ->.
      * intros fd0 p d Hin.
        apply elem_of_cons in Hin as [Hin|Hin]; [discriminate|].
        apply list_elem_of_singleton in Hin. discriminate.
Qed.

Lemma rewrite_loop cfg (args : list string) : ∀ argv w r w',
  for_fold args (rewrite_arg cfg) argv w = (r, w') →
  frame w w' ∧
  ∀ argv', r = Return argv' →
    ∃ bs, Forall2 (arg_rewrite cfg) args bs ∧ argv' = argv ++ concat bs.
Proof.
  induction args as [|arg args IH]; intros argv w r w'.
  - intros [= <- <-]. split; [apply frame_refl|].
    intros argv' [= <-]. exists []. split; [constructor|].
    now rewrite app_nil_r.
  - cbn [for_fold]. rewrite bind_run.
    destruct (rewrite_arg cfg argv arg w) as [[argv1|e] w1] eqn:E1;
      apply rewrite_arg_cases in E1 as [F1 S1].
    + intros E2. apply IH in E2 as [F2 S2].
      split; [eapply frame_trans; eassumption|].
      intros argv' ->.
      destruct (S1 _ eq_refl) as (b & Hb & ->).
      destruct (S2 _ eq_refl) as (bs & Hbs & ->).
      exists (b :: bs). split; [now constructor|].
      cbn. now rewrite app_assoc.
    + intros [= <- <-]. split; [exact F1 | discriminate].
Qed.

Lemma of_option_run {A} (e : exn) (o : option A) (w : world) :
  of_option e o w = (match o with Some a => Return a | None => Raise e end, w).
Proof. now destruct o. Qed.

Lemma initial_argv_run cfg args w :
  initial_argv cfg args w
  = (if PyStr.truthy (envoy_cxxflags cfg)
        && existsb (PyStr.str_in "-std=c++") args
     then match Shlex.split (envoy_cxxflags cfg) with
          | Some flags => Return flags
          | None => Raise ValueError
          end
     else Return [], w).
Proof.
  unfold initial_argv. rewrite std_in_printed_args.
  destruct (_ && _); [apply of_option_run | reflexivity].
Qed.

Lemma build_argv_cases cfg args w r w' :
  build_argv cfg args w = (r, w') →
  frame w w' ∧
  ∀ argv, r = Return argv →
    if rewrites_args cfg args
    then ∃ pre body, argv = pre ++ body ∧ rewritten cfg args pre body
    else argv = args.
Proof.
  unfold build_argv. destruct (rewrites_args cfg args).
  2:{ intros [= <- <-]. split; [apply frame_refl|]. now intros argv [= <-]. }
  rewrite bind_run, initial_argv_run.
  destruct (_ && _) eqn:Ec.
  - destruct (Shlex.split _) as [flags|] eqn:Es.
    + intros [F S]%rewrite_loop. split; [exact F|].
      intros argv ->. destruct (S _ eq_refl) as (bs & Hbs & ->).
      exists flags, (concat bs). split; [reflexivity|].
      unfold rewritten. rewrite Ec. eauto.
    + intros [= <- <-]. split; [apply frame_refl | discriminate].
  - intros [F S]%rewrite_loop. split; [exact F|].
    intros argv ->. destruct (S _ eq_refl) as (bs & Hbs & ->).
    exists [], (concat bs). split; [reflexivity|].
    unfold rewritten. rewrite Ec. eauto.
Qed.

Lemma main_not_probe cfg args w :
  is_probe args = false →
  main cfg args w
  = match build_argv cfg args w with
    | (Return argv, w') =>
        (Return (Execv (select_compiler cfg args)
                   ([select_compiler cfg args] ++ argv
                    ++ compiler_options (select_compiler cfg args))), w')
    | (Raise e, w') => (Raise e, w')
    end.
Proof. intros Hp. unfold main. rewrite Hp. now rewrite bind_run. Qed.

Lemma main_exec cfg args w c argv w' :
  is_probe args = false →
  main cfg args w = (Return (Execv c argv), w') →
  c = select_compiler cfg args ∧
  ∃ body, build_argv cfg args w = (Return body, w') ∧
          argv = [c] ++ body ++ compiler_options c.
Proof.
  intros Hp. rewrite main_not_probe by exact Hp.
  destruct (build_argv cfg args w) as [[body|e] w1]; [|discriminate].
  intros [= <- <- <-]. eauto.
Qed.

Lemma is_probe_false (args : list string) :
  is_probe args = false ↔ take 4 args ≠ ["-E"; "-xc++"; "-"; "-v"].
Proof. unfold is_probe. apply bool_decide_eq_false. Qed.

Lemma is_probe_true (args : list string) :
  is_probe args = true ↔ take 4 args = ["-E"; "-xc++"; "-"; "-v"].
Proof. unfold is_probe. apply bool_decide_eq_true. Qed.

(** ** The claims *)

Lemma lines_join (content : string) : PyStr.join (PyStr.lines content) = content.
Proof.
  induction content as [|c s IH]; [reflexivity|].
  cbn [PyStr.lines]. destruct (Ascii.eqb c PyStr.LF).
  - cbn [PyStr.join]. now rewrite IH.
  - destruct (PyStr.lines s) as [|l ls]; cbn [PyStr.join] in *.
    + now rewrite <- IH.
    + now rewrite append_cons, IH.
Qed.

(** The lines of a file are lines, and all of them but the last end with a
    line feed. *)
Lemma lines_shape (content : string) :
  Forall (λ l, one_line l = true) (PyStr.lines content) ∧
  ∀ ls x, PyStr.lines content = ls ++ [x] →
          Forall (λ l, ends_with_line_feed l = true) ls.
Proof.
  induction content as [|c s [IH1 IH2]]; cbn [PyStr.lines].
  { split; [constructor|]. intros [|l ls] x H; discriminate. }
  destruct (Ascii.eqb c PyStr.LF) eqn:Ec.
  - split; [now constructor|].
    intros [|l ls] x H; [constructor|].
    injection H as <- H. constructor; [exact Ec | eauto].
  - destruct (PyStr.lines s) as [|l ls'] eqn:El.
    + split; [now repeat constructor|].
      intros [|l ls] x H; [constructor|].
      destruct ls; discriminate.
    + apply Forall_cons in IH1 as [Hl Hls]. split.
      * constructor; [|exact Hls].
        destruct l; [discriminate|]. cbn [one_line]. now rewrite Ec.
      * intros [|l0 ls0] x H; [constructor|].
        injection H as <- H.
        specialize (IH2 (l :: ls0) x). rewrite H in IH2.
        apply Forall_cons in IH2 as [Hl' Hls']; [|reflexivity].
        constructor; [|exact Hls'].
        destruct l; [discriminate|]. exact Hl'.
Qed.

Lemma sanitize_lines_swap cfg (ls : list string) :
  PyStr.str_in "-stdlib=libc++" (envoy_cxxflags cfg) = true →
  ls ≫= sanitize_line cfg
  = (λ l, if decide (l = LSTDCXX_LINE) then LCXX_LINE else l) <$> ls.
Proof.
  intros E. induction ls as [|l ls IH]; [reflexivity|].
  rewrite bind_cons, fmap_cons, IH. unfold sanitize_line at 1.
  rewrite E. now destruct (decide _).
Qed.

Lemma sanitize_lines_drop cfg (ls : list string) :
  PyStr.str_in "-stdlib=libc++" (envoy_cxxflags cfg) = false →
  ls ≫= sanitize_line cfg = filter (λ l, l ≠ LSTDCXX_LINE) ls.
Proof.
  intros E. induction ls as [|l ls IH]; [reflexivity|].
  rewrite bind_cons, IH. unfold sanitize_line at 1. rewrite E.
  destruct (decide (l = LSTDCXX_LINE)) as [->|Hne].
  - now rewrite filter_cons_False by auto.
  - now rewrite filter_cons_True by auto.
Qed.

(** C1. [sanitize_flagfile] reads the lines of the response file (each with
    its terminator; their concatenation is the content of the file) and
    writes them to the file the output descriptor is open on, in the
    original order: when the C++ flags do not contain [-stdlib=libc++] the
    lines equal to [-lstdc++] followed by a line feed are left out and all
    the others are written unchanged; when they do, each such line is
    written as [-lc++] followed by a line feed and all the others are
    written unchanged.  The response file keeps its content. *)
Theorem sanitize_flagfile_lines cfg in_path out_fd out content old w :
  files w !! in_path = Some content →
  fds w !! out_fd = Some out →
  files w !! out = Some old →
  out ≠ in_path →
  let ls := PyStr.lines content in
  let out_lines :=
    if PyStr.str_in "-stdlib=libc++" (envoy_cxxflags cfg)
    then (λ l, if decide (l = LSTDCXX_LINE) then LCXX_LINE else l) <$> ls
    else filter (λ l, l ≠ LSTDCXX_LINE) ls in
  PyStr.join ls = content ∧
  ∃ w', sanitize_flagfile cfg in_path out_fd w = (Return tt, w') ∧
        files w' !! out = Some (old +:+ PyStr.join out_lines) ∧
        log w' = rev (EvWrite out_fd out <$> out_lines)
                 ++ EvOpenRead in_path :: log w ∧
        files w' !! in_path = Some content.
Proof.
  intros Hin Hfd Hout Hne ls out_lines. split; [apply lines_join|].
  rewrite (sanitize_flagfile_run cfg in_path out_fd out old) by assumption.
  rewrite Hin. cbv zeta.
  assert (Hl : PyStr.lines content ≫= sanitize_line cfg = out_lines).
  { unfold out_lines. destruct (PyStr.str_in _ _) eqn:E.
    - now apply sanitize_lines_swap.
    - now apply sanitize_lines_drop. }
  rewrite Hl. eexists. split; [reflexivity|]. cbn [files log].
  split; [apply lookup_insert_eq|]. split; [reflexivity|].
  now rewrite lookup_insert_ne.
Qed.

Lemma sanitize_flagfile_lines_witness :
  ∃ w', sanitize_flagfile (cfg_plain "") "link.params" 3 world_params
        = (Return tt, w') ∧
        files w' !! "out.params" = Some ("-la" +:+ NL +:+ "-lb" +:+ NL).
Proof.
  destruct (sanitize_flagfile_lines (cfg_plain "") "link.params" 3 "out.params"
              ("-la" +:+ NL +:+ LSTDCXX_LINE +:+ "-lb" +:+ NL) "" world_params)
    as (_ & w' & Hrun & Hout & _ & _).
  - reflexivity.
  - reflexivity.
  - reflexivity.
  - discriminate.
  - exists w'. split; [exact Hrun|]. exact Hout.
Defined.

(** *** Shape of the argument list *)

Lemma rewrites_args_true cfg args :
  rewrites_args cfg args = true ↔
  "-static-libstdc++" ∈ args
  ∨ PyStr.str_in "-stdlib=libc++" (envoy_cxxflags cfg) = true.
Proof.
  unfold rewrites_args. rewrite orb_true_iff, list_in_true. reflexivity.
Qed.

Lemma select_compiler_cxx cfg args :
  "-static-libstdc++" ∈ args ∨ "-stdlib=libc++" ∈ args →
  select_compiler cfg args = envoy_real_cxx cfg.
Proof.
  intros H. unfold select_compiler.
  rewrite <- !list_in_true, <- orb_true_iff in H. now rewrite H.
Qed.

Lemma select_compiler_cc cfg args :
  ¬ ("-static-libstdc++" ∈ args ∨ "-stdlib=libc++" ∈ args) →
  select_compiler cfg args = envoy_real_cc cfg.
Proof.
  intros H. unfold select_compiler.
  rewrite <- !list_in_true, <- orb_true_iff in H.
  now destruct (_ || _).
Qed.

Lemma arg_rewrite_no_lstdcxx cfg arg b :
  arg_rewrite cfg arg b → "-lstdc++" ∉ b.
Proof.
  intros [E|E|a path Hne Hw|a Hne Hw] Hin.
  - inversion Hin.
  - apply list_elem_of_singleton in Hin. discriminate.
  - apply list_elem_of_singleton in Hin. discriminate.
  - apply list_elem_of_singleton in Hin. congruence.
Qed.

Lemma rewritten_no_lstdcxx cfg args bs :
  Forall2 (arg_rewrite cfg) args bs → "-lstdc++" ∉ concat bs.
Proof.
  induction 1 as [|arg b args bs Hb _ IH]; cbn [concat].
  - intros Hin. inversion Hin.
  - intros [Hin|Hin]%elem_of_app; [|auto].
    now apply (arg_rewrite_no_lstdcxx cfg arg b).
Qed.

Lemma compiler_options_no_lstdcxx (compiler : string) :
  "-lstdc++" ∉ compiler_options compiler.
Proof.
  unfold compiler_options. intros Hin.
  destruct (PyStr.str_in "clang" compiler);
    [|destruct (_ || _)];
    repeat (apply elem_of_cons in Hin as [Hin|Hin]; [discriminate|]);
    inversion Hin.
Qed.

Lemma rewritten_sublist cfg args bs :
  Forall2 (arg_rewrite cfg) args bs →
  filter (λ a, a ≠ "-lstdc++" ∧ PyStr.startswith a "-Wl,@" = false) args
    `sublist_of` concat bs.
Proof.
  induction 1 as [|arg b args bs Hb _ IH]; cbn [concat]; [constructor|].
  destruct Hb as [E|E|a path Hne Hw|a Hne Hw].
  - rewrite filter_cons_False by tauto. exact IH.
  - rewrite filter_cons_False by tauto. now apply sublist_cons.
  - rewrite filter_cons_False by (rewrite Hw; intros [_ ?]; discriminate).
    now apply sublist_cons.
  - rewrite filter_cons_True by tauto. now apply sublist_skip.
Qed.

(** The list passed to [os.execv] when the probe is not recognised:
    the compiler, the initial list, the rewritten arguments, the options of
    the compiler. *)
Lemma main_shape cfg args w c argv w' :
  is_probe args = false →
  main cfg args w = (Return (Execv c argv), w') →
  c = select_compiler cfg args ∧
  ∃ pre body,
    argv = [c] ++ pre ++ body ++ compiler_options c ∧
    if rewrites_args cfg args then rewritten cfg args pre body
    else pre = [] ∧ body = args.
Proof.
  intros Hp Hm. apply main_exec in Hm as (-> & body & Hb & ->); [|exact Hp].
  split; [reflexivity|].
  apply build_argv_cases in Hb as [_ S]. specialize (S _ eq_refl).
  destruct (rewrites_args cfg args).
  - destruct S as (pre & body' & -> & Hr). exists pre, body'.
    split; [|exact Hr]. now rewrite <- !app_assoc.
  - subst body. exists [], args. auto.
Qed.

(** [main] runs a compiler, and touches no file, whenever the C++ flags
    can be split and no argument names a response file. *)
Lemma rewrite_loop_returns cfg (args : list string) :
  Forall (λ a, PyStr.startswith a "-Wl,@" = false) args →
  ∀ argv w, ∃ argv',
    for_fold args (rewrite_arg cfg) argv w = (Return argv', w).
Proof.
  induction 1 as [|arg args Ha _ IH]; intros argv w.
  - exists argv. reflexivity.
  - cbn [for_fold]. rewrite bind_run. unfold rewrite_arg at 1. rewrite Ha.
    destruct (String.eqb arg "-lstdc++"); [destruct (PyStr.str_in _ _)|];
      rewrite ?ret_run; apply IH.
Qed.

Lemma main_runs_compiler cfg args w :
  Forall (λ a, PyStr.startswith a "-Wl,@" = false) args →
  is_Some (Shlex.split (envoy_cxxflags cfg)) →
  ∃ c argv, main cfg args w = (Return (Execv c argv), w).
Proof.
  intros Hargs [flags Hs]. destruct (is_probe args) eqn:Hp.
  - unfold main. rewrite Hp, bind_run, of_option_run, Hs. eauto.
  - rewrite main_not_probe by exact Hp. unfold build_argv.
    destruct (rewrites_args cfg args); [|eauto].
    rewrite bind_run, initial_argv_run, Hs.
    destruct (_ && _);
      [destruct (rewrite_loop_returns cfg args Hargs flags w) as [argv' ->]
      |destruct (rewrite_loop_returns cfg args Hargs [] w) as [argv' ->]];
      eauto.
Qed.

(** *** C2: [-stdlib=libc++] among the arguments or in the C++ flags *)

(** C2, as stated, fails both ways.  With [-stdlib=libc++] only among the
    arguments the C++ compiler is run but the arguments are not rewritten
    ([-lstdc++] is passed on); with [-stdlib=libc++] only in the C++ flags
    the arguments are rewritten but the C compiler is run. *)
Lemma stdlib_flag_one_side_only :
  (∃ c argv w',
     main (cfg_plain "") ["-stdlib=libc++"; "-lstdc++"] world0
     = (Return (Execv c argv), w') ∧
     is_probe ["-stdlib=libc++"; "-lstdc++"] = false ∧
     "-stdlib=libc++" ∈ ["-stdlib=libc++"; "-lstdc++"] ∧
     ¬ ∃ pre body,
         argv = [c] ++ pre ++ body ++ compiler_options c ∧
         rewritten (cfg_plain "") ["-stdlib=libc++"; "-lstdc++"] pre body) ∧
  (∃ c argv w',
     main (cfg_plain "-stdlib=libc++") ["-lstdc++"; "foo.o"] world0
     = (Return (Execv c argv), w') ∧
     is_probe ["-lstdc++"; "foo.o"] = false ∧
     PyStr.str_in "-stdlib=libc++"
       (envoy_cxxflags (cfg_plain "-stdlib=libc++")) = true ∧
     c ≠ envoy_real_cxx (cfg_plain "-stdlib=libc++")).
Proof.
  split.
  - eexists _, _, _. split; [reflexivity|]. split; [reflexivity|].
    split; [apply list_elem_of_here|].
    intros (pre & body & Hargv & Hpre & bs & Hbs & ->).
    cbn in Hpre. subst pre.
    apply rewritten_no_lstdcxx in Hbs. apply Hbs.
    injection Hargv as Hargv.
    change (compiler_options "/usr/bin/c++") with (@nil string) in Hargv.
    cbn [app] in Hargv. rewrite app_nil_r in Hargv. rewrite <- Hargv.
    apply list_elem_of_further, list_elem_of_here.
  - eexists _, _, _. split; [reflexivity|]. split; [reflexivity|].
    split; [reflexivity | discriminate].
Qed.

(** C2, amended.  When the probe is not recognised and the compiler is
    run: if [-stdlib=libc++] is among the arguments, the compiler is the
    C++ compiler; if [-stdlib=libc++] occurs in the C++ flags, the
    arguments are rewritten (the list passed on is the compiler, the
    initial list, what each argument is rewritten to, and the options of
    the compiler). *)
Theorem stdlib_flag_effects cfg args w c argv w' :
  take 4 args ≠ ["-E"; "-xc++"; "-"; "-v"] →
  main cfg args w = (Return (Execv c argv), w') →
  ("-stdlib=libc++" ∈ args → c = envoy_real_cxx cfg) ∧
  (PyStr.str_in "-stdlib=libc++" (envoy_cxxflags cfg) = true →
   ∃ pre body,
     argv = [c] ++ pre ++ body ++ compiler_options c ∧
     rewritten cfg args pre body).
Proof.
  intros Hp%is_probe_false Hm.
  apply main_shape in Hm as (-> & pre & body & Hargv & Hr); [|exact Hp].
  split.
  - intros Hin. apply select_compiler_cxx. now right.
  - intros Hs. exists pre, body. split; [exact Hargv|].
    assert (Ht : rewrites_args cfg args = true)
      by (apply rewrites_args_true; now right).
    now rewrite Ht in Hr.
Qed.

Lemma stdlib_flag_effects_witness :
  "/usr/bin/c++" = envoy_real_cxx (cfg_plain "-stdlib=libc++") ∧
  ∃ pre body,
    ["/usr/bin/c++"; "-stdlib=libc++"; "-lc++"; "foo.o"]
    = ["/usr/bin/c++"] ++ pre ++ body ++ compiler_options "/usr/bin/c++" ∧
    rewritten (cfg_plain "-stdlib=libc++")
      ["-stdlib=libc++"; "-lstdc++"; "foo.o"] pre body.
Proof.
  destruct (stdlib_flag_effects (cfg_plain "-stdlib=libc++")
              ["-stdlib=libc++"; "-lstdc++"; "foo.o"] world0
              "/usr/bin/c++"
              ["/usr/bin/c++"; "-stdlib=libc++"; "-lc++"; "foo.o"] world0)
    as [H1 H2].
  - discriminate.
  - reflexivity.
  - split; [apply H1, list_elem_of_here | apply H2; reflexivity].
Defined.

(** *** C3: [-lstdc++] among the arguments *)

(** C3, as stated, fails: the tokens of the C++ flags are put in front of
    the rewritten arguments as they are, so a [-lstdc++] in the C++ flags
    reaches the compiler although the arguments are rewritten. *)
Lemma lstdcxx_from_cxxflags :
  ∃ c argv w',
    main (cfg_plain "-lstdc++") ["-static-libstdc++"; "-std=c++11"] world0
    = (Return (Execv c argv), w') ∧
    is_probe ["-static-libstdc++"; "-std=c++11"] = false ∧
    rewrites_args (cfg_plain "-lstdc++") ["-static-libstdc++"; "-std=c++11"]
    = true ∧
    "-lstdc++" ∈ argv.
Proof.
  eexists _, _, _. split; [reflexivity|].
  split; [reflexivity|]. split; [reflexivity|].
  apply list_elem_of_further, list_elem_of_here.
Qed.

(** C3, amended.  When the probe is not recognised, the arguments are
    rewritten ([-static-libstdc++] among the arguments or [-stdlib=libc++]
    in the C++ flags) and the compiler is run, the list passed on is the
    compiler, an initial list [pre] (empty, or the tokens of the C++
    flags), what each argument is rewritten to, in order, and the options
    of the compiler.  An argument equal to [-lstdc++] is rewritten to
    [-lc++] when the C++ flags contain [-stdlib=libc++] and to nothing
    otherwise, and no [-lstdc++] is left after the initial list. *)
Theorem lstdcxx_removed cfg args w c argv w' :
  take 4 args ≠ ["-E"; "-xc++"; "-"; "-v"] →
  "-static-libstdc++" ∈ args
  ∨ PyStr.str_in "-stdlib=libc++" (envoy_cxxflags cfg) = true →
  main cfg args w = (Return (Execv c argv), w') →
  ∃ pre bs,
    argv = [c] ++ pre ++ concat bs ++ compiler_options c ∧
    (pre = [] ∨ Shlex.split (envoy_cxxflags cfg) = Some pre) ∧
    Forall2 (arg_rewrite cfg) args bs ∧
    Forall2 (λ arg b, arg = "-lstdc++" →
               b = if PyStr.str_in "-stdlib=libc++" (envoy_cxxflags cfg)
                   then ["-lc++"] else []) args bs ∧
    "-lstdc++" ∉ concat bs ++ compiler_options c.
Proof.
  intros Hp%is_probe_false Ht%rewrites_args_true Hm.
  apply main_shape in Hm as (-> & pre & body & Hargv & Hr); [|exact Hp].
  rewrite Ht in Hr. destruct Hr as (Hpre & bs & Hbs & ->).
  exists pre, bs. split; [exact Hargv|]. split.
  { destruct (_ && _); auto. }
  split; [exact Hbs|]. split.
  - eapply Forall2_impl; [exact Hbs|].
    intros arg b [E|E|a path Hne Hw|a Hne Hw] Ha;
      try congruence; now rewrite E.
  - intros [Hin|Hin]%elem_of_app.
    + now apply (rewritten_no_lstdcxx cfg args bs).
    + now apply (compiler_options_no_lstdcxx _ Hin).
Qed.

Lemma lstdcxx_removed_witness :
  ∃ pre bs,
    ["/usr/bin/g++"; "-static-libstdc++"; "foo.o"; "-Wno-maybe-uninitialized"]
    = ["/usr/bin/g++"] ++ pre ++ concat bs ++ compiler_options "/usr/bin/g++" ∧
    "-lstdc++" ∉ concat bs ++ compiler_options "/usr/bin/g++".
Proof.
  destruct (lstdcxx_removed (cfg_gcc "")
              ["-static-libstdc++"; "-lstdc++"; "foo.o"] world0
              "/usr/bin/g++"
              ["/usr/bin/g++"; "-static-libstdc++"; "foo.o";
               "-Wno-maybe-uninitialized"] world0)
    as (pre & bs & H1 & _ & _ & _ & H2).
  - discriminate.
  - left. apply list_elem_of_here.
  - reflexivity.
  - exists pre, bs. split; [exact H1 | exact H2].
Defined.

(** *** C4: the compiler *)

(** C4.  When the probe is not recognised, the compiler chosen is the C++
    compiler if [-static-libstdc++] or [-stdlib=libc++] is among the
    arguments and the C compiler otherwise; when [main] runs a compiler it
    runs the chosen one, with its path as argument 0. *)
Theorem compiler_selection cfg args :
  take 4 args ≠ ["-E"; "-xc++"; "-"; "-v"] →
  ("-static-libstdc++" ∈ args ∨ "-stdlib=libc++" ∈ args →
   select_compiler cfg args = envoy_real_cxx cfg) ∧
  (¬ ("-static-libstdc++" ∈ args ∨ "-stdlib=libc++" ∈ args) →
   select_compiler cfg args = envoy_real_cc cfg) ∧
  ∀ w c argv w',
    main cfg args w = (Return (Execv c argv), w') →
    c = select_compiler cfg args ∧ ∃ rest, argv = c :: rest.
Proof.
  intros Hp%is_probe_false.
  split; [apply select_compiler_cxx|]. split; [apply select_compiler_cc|].
  intros w c argv w' Hm.
  apply main_exec in Hm as (-> & body & _ & ->); [|exact Hp].
  split; [reflexivity|]. eexists. reflexivity.
Qed.

Lemma compiler_selection_witness :
  select_compiler (cfg_gcc "") ["-static-libstdc++"; "foo.o"] = "/usr/bin/g++" ∧
  "/usr/bin/gcc" = select_compiler (cfg_gcc "") ["-c"; "foo.c"].
Proof.
  split.
  - apply (compiler_selection (cfg_gcc "") ["-static-libstdc++"; "foo.o"]).
    + discriminate.
    + left. apply list_elem_of_here.
  - destruct (compiler_selection (cfg_gcc "") ["-c"; "foo.c"]) as (_ & _ & H).
    + discriminate.
    + apply (H world0 "/usr/bin/gcc"
               ["/usr/bin/gcc"; "-c"; "foo.c"; "-Wno-maybe-uninitialized"]
               world0).
      reflexivity.
Defined.

(** *** C5: arguments passed on unchanged *)

(** C5.  When the probe is not recognised, neither [-static-libstdc++] nor
    [-stdlib=libc++] is among the arguments and the C++ flags do not
    contain [-stdlib=libc++], [main] runs the C compiler with the
    arguments unchanged, followed by the options of that compiler, and
    touches no file. *)
Theorem plain_arguments_unchanged cfg args w :
  take 4 args ≠ ["-E"; "-xc++"; "-"; "-v"] →
  "-static-libstdc++" ∉ args →
  "-stdlib=libc++" ∉ args →
  PyStr.str_in "-stdlib=libc++" (envoy_cxxflags cfg) = false →
  main cfg args w
  = (Return (Execv (envoy_real_cc cfg)
               ([envoy_real_cc cfg] ++ args
                ++ compiler_options (envoy_real_cc cfg))), w).
Proof.
  intros Hp%is_probe_false H1%list_in_false H2%list_in_false H3.
  rewrite main_not_probe by exact Hp.
  unfold build_argv, rewrites_args, select_compiler.
  now rewrite H1, H2, H3.
Qed.

Lemma plain_arguments_unchanged_witness :
  main (cfg_gcc "-O2") ["-c"; "foo.c"; "-lstdc++"] world0
  = (Return (Execv "/usr/bin/gcc"
               ["/usr/bin/gcc"; "-c"; "foo.c"; "-lstdc++";
                "-Wno-maybe-uninitialized"]), world0).
Proof.
  apply (plain_arguments_unchanged (cfg_gcc "-O2") ["-c"; "foo.c"; "-lstdc++"]).
  - discriminate.
  - apply (proj1 (list_in_false _ _)). reflexivity.
  - apply (proj1 (list_in_false _ _)). reflexivity.
  - reflexivity.
Defined.

(** *** C6: the include path probe *)

(** C6.  When the first four arguments are [-E], [-xc++], [-], [-v] and
    the C++ flags split into the tokens [flags], [main] runs the C++
    compiler with its path, the arguments unchanged and [flags], and
    nothing else; no file is touched. *)
Theorem probe_passthrough cfg args flags w :
  take 4 args = ["-E"; "-xc++"; "-"; "-v"] →
  Shlex.split (envoy_cxxflags cfg) = Some flags →
  main cfg args w
  = (Return (Execv (envoy_real_cxx cfg)
               ([envoy_real_cxx cfg] ++ args ++ flags)), w).
Proof.
  intros Hp%is_probe_true Hs. unfold main.
  now rewrite Hp, bind_run, of_option_run, Hs.
Qed.

Lemma probe_passthrough_witness :
  main (Config "/usr/bin/clang" "/usr/bin/clang++" "-X -Y")
    ["-E"; "-xc++"; "-"; "-v"; "extra"] world0
  = (Return (Execv "/usr/bin/clang++"
               ["/usr/bin/clang++"; "-E"; "-xc++"; "-"; "-v"; "extra";
                "-X"; "-Y"]), world0).
Proof.
  apply (probe_passthrough (Config "/usr/bin/clang" "/usr/bin/clang++" "-X -Y")
           ["-E"; "-xc++"; "-"; "-v"; "extra"] ["-X"; "-Y"]).
  - reflexivity.
  - reflexivity.
Defined.

(** *** C7: the tokens of the C++ flags *)

Lemma truthy_true (s : string) : PyStr.truthy s = true ↔ s ≠ "".
Proof. destruct s; cbn; split; congruence. Qed.

(** C7.  When the probe is not recognised and the compiler is run, the
    list passed on is the compiler, a list [pre], a list [body] and the
    options of the compiler, where [body] comes from the arguments alone
    (what each is rewritten to when the arguments are rewritten, the
    arguments themselves otherwise) and [pre] is the list of the tokens of
    the C++ flags when the arguments are rewritten, the C++ flags are not
    empty and an argument contains [-std=c++], and is empty in every
    other case.  (The script looks for [-std=c++] in the printed form of
    the argument list; it is there exactly when an argument contains
    it.) *)
Theorem cxxflags_prepended cfg args w c argv w' :
  take 4 args ≠ ["-E"; "-xc++"; "-"; "-v"] →
  main cfg args w = (Return (Execv c argv), w') →
  let triggered :=
    "-static-libstdc++" ∈ args
    ∨ PyStr.str_in "-stdlib=libc++" (envoy_cxxflags cfg) = true in
  let prepends :=
    triggered ∧ envoy_cxxflags cfg ≠ ""
    ∧ ∃ a, a ∈ args ∧ PyStr.str_in "-std=c++" a = true in
  (PyStr.str_in "-std=c++" (PyStr.str_of_list args) = true ↔
   ∃ a, a ∈ args ∧ PyStr.str_in "-std=c++" a = true) ∧
  ∃ pre body,
    argv = [c] ++ pre ++ body ++ compiler_options c ∧
    (prepends → Shlex.split (envoy_cxxflags cfg) = Some pre) ∧
    (¬ prepends → pre = []) ∧
    ((triggered ∧ ∃ bs, Forall2 (arg_rewrite cfg) args bs ∧ body = concat bs)
     ∨ (¬ triggered ∧ body = args)).
Proof.
  intros Hp%is_probe_false Hm triggered prepends.
  split; [rewrite std_in_printed_args; apply existsb_elem_of|].
  apply main_shape in Hm as (-> & pre & body & Hargv & Hr); [|exact Hp].
  exists pre, body. split; [exact Hargv|].
  destruct (rewrites_args cfg args) eqn:Et.
  - apply rewrites_args_true in Et. destruct Hr as (Hpre & Hbody).
    destruct (_ && _) eqn:Ec in Hpre.
    + split; [auto|]. split; [|now left].
      intros Hn. exfalso. apply Hn.
      apply andb_true_iff in Ec as [E1%truthy_true E2%existsb_elem_of].
      now split.
    + split; [|split; [auto | now left]].
      intros (_ & E1%truthy_true & E2%existsb_elem_of).
      rewrite E1, E2 in Ec. discriminate.
  - destruct Hr as [-> ->].
    assert (Hnt : ¬ triggered).
    { intros Ht%rewrites_args_true. congruence. }
    split; [|split; [auto | now right]].
    intros (Ht & _). contradiction.
Qed.

Lemma cxxflags_prepended_witness :
  ∃ pre body,
    ["/usr/bin/g++"; "-O2"; "-g"; "-static-libstdc++"; "-std=c++11";
     "-Wno-maybe-uninitialized"]
    = ["/usr/bin/g++"] ++ pre ++ body ++ compiler_options "/usr/bin/g++" ∧
    Shlex.split "-O2 -g" = Some pre.
Proof.
  destruct (cxxflags_prepended (cfg_gcc "-O2 -g")
              ["-static-libstdc++"; "-std=c++11"] world0
              "/usr/bin/g++"
              ["/usr/bin/g++"; "-O2"; "-g"; "-static-libstdc++"; "-std=c++11";
               "-Wno-maybe-uninitialized"] world0)
    as (_ & pre & body & H1 & H2 & _ & _).
  - discriminate.
  - reflexivity.
  - exists pre, body. split; [exact H1|]. apply H2.
    split; [left; apply list_elem_of_here|].
    split; [discriminate|].
    exists "-std=c++11". split; [|reflexivity].
    apply list_elem_of_further, list_elem_of_here.
Defined.

(** *** C8: the options of the compiler *)

(** C8.  When the probe is not recognised and the compiler is run, the
    list passed on is the compiler, the argument list built before the
    options are added, and then: the three options
    [-fno-limit-debug-info], [-Wthread-safety],
    [-Wgnu-conditional-omitted-operand] if the path of the compiler
    contains [clang]; else the option [-Wno-maybe-uninitialized] if it
    contains [gcc] or [g++]; else nothing. *)
Theorem toolchain_options cfg args w c argv w' :
  take 4 args ≠ ["-E"; "-xc++"; "-"; "-v"] →
  main cfg args w = (Return (Execv c argv), w') →
  ∃ body,
    build_argv cfg args w = (Return body, w') ∧
    argv = [c] ++ body ++
      (if PyStr.str_in "clang" c then
         ["-fno-limit-debug-info"; "-Wthread-safety";
          "-Wgnu-conditional-omitted-operand"]
       else if PyStr.str_in "gcc" c || PyStr.str_in "g++" c then
         ["-Wno-maybe-uninitialized"]
       else []).
Proof.
  intros Hp%is_probe_false Hm.
  apply main_exec in Hm as (-> & body & Hb & ->); [|exact Hp].
  exists body. split; [exact Hb | reflexivity].
Qed.

Lemma toolchain_options_witness :
  ∃ body,
    build_argv (Config "/opt/llvm/bin/clang" "/opt/llvm/bin/clang++" "")
      ["-c"; "gcc_compat.c"] world0 = (Return body, world0) ∧
    ["/opt/llvm/bin/clang"; "-c"; "gcc_compat.c"; "-fno-limit-debug-info";
     "-Wthread-safety"; "-Wgnu-conditional-omitted-operand"]
    = ["/opt/llvm/bin/clang"] ++ body ++
        ["-fno-limit-debug-info"; "-Wthread-safety";
         "-Wgnu-conditional-omitted-operand"].
Proof.
  apply (toolchain_options
           (Config "/opt/llvm/bin/clang" "/opt/llvm/bin/clang++" "")
           ["-c"; "gcc_compat.c"] world0 "/opt/llvm/bin/clang").
  - discriminate.
  - reflexivity.
Defined.

(** *** C9: the order of the tokens *)

(** C9, as stated, fails: the tokens of the C++ flags stand before every
    argument, and the [-lc++] that replaces [-lstdc++] stands where
    [-lstdc++] stood, before the arguments that follow it.  So the list
    passed on is not the surviving arguments followed by the added
    tokens. *)
Lemma added_tokens_before_survivors :
  ∃ c argv w',
    main (cfg_plain "-stdlib=libc++") ["-std=c++11"; "-lstdc++"; "foo.o"] world0
    = (Return (Execv c argv), w') ∧
    argv = [c; "-stdlib=libc++"; "-std=c++11"; "-lc++"; "foo.o"] ∧
    is_probe ["-std=c++11"; "-lstdc++"; "foo.o"] = false ∧
    surviving (cfg_plain "-stdlib=libc++") ["-std=c++11"; "-lstdc++"; "foo.o"]
    = ["-std=c++11"; "foo.o"] ∧
    ¬ ∃ added,
        argv = [c] ++ surviving (cfg_plain "-stdlib=libc++")
                        ["-std=c++11"; "-lstdc++"; "foo.o"] ++ added.
Proof.
  eexists _, _, _. split; [reflexivity|]. split; [reflexivity|].
  split; [reflexivity|]. split; [reflexivity|].
  intros (added & H). discriminate H.
Qed.

(** C9, amended.  When the probe is not recognised and the compiler is
    run, the list passed on is the compiler, then an initial list (empty,
    or the tokens of the C++ flags), then [body], then the options of the
    compiler.  When the arguments are rewritten, [body] is, argument by
    argument and in the order of the arguments, what each is rewritten to
    (itself, nothing or [-lc++] for [-lstdc++], the reference to the new
    file for a response file); otherwise [body] is the arguments.  The
    arguments passed on unchanged are in [body] in their original order. *)
Theorem tokens_in_order cfg args w c argv w' :
  take 4 args ≠ ["-E"; "-xc++"; "-"; "-v"] →
  main cfg args w = (Return (Execv c argv), w') →
  ∃ pre body,
    argv = [c] ++ pre ++ body ++ compiler_options c ∧
    (pre = [] ∨ Shlex.split (envoy_cxxflags cfg) = Some pre) ∧
    (if rewrites_args cfg args
     then ∃ bs, Forall2 (arg_rewrite cfg) args bs ∧ body = concat bs
     else body = args) ∧
    surviving cfg args `sublist_of` body.
Proof.
  intros Hp%is_probe_false Hm.
  apply main_shape in Hm as (-> & pre & body & Hargv & Hr); [|exact Hp].
  exists pre, body. split; [exact Hargv|].
  unfold surviving. destruct (rewrites_args cfg args).
  - destruct Hr as (Hpre & bs & Hbs & ->). split.
    { destruct (_ && _); auto. }
    split; [eauto|]. now apply (rewritten_sublist cfg).
  - destruct Hr as [-> ->]. split; [now left|]. split; reflexivity.
Qed.

Lemma tokens_in_order_witness :
  ∃ pre body,
    ["/usr/bin/c++"; "-static-libstdc++"; "a.o"; "b.o"]
    = ["/usr/bin/c++"] ++ pre ++ body ++ compiler_options "/usr/bin/c++" ∧
    surviving (cfg_plain "") ["-static-libstdc++"; "a.o"; "-lstdc++"; "b.o"]
      `sublist_of` body.
Proof.
  destruct (tokens_in_order (cfg_plain "")
              ["-static-libstdc++"; "a.o"; "-lstdc++"; "b.o"] world0
              "/usr/bin/c++"
              ["/usr/bin/c++"; "-static-libstdc++"; "a.o"; "b.o"] world0)
    as (pre & body & H1 & _ & _ & H2).
  - discriminate.
  - reflexivity.
  - exists pre, body. split; [exact H1 | exact H2].
Defined.

(** *** C10: the response files *)

(** C10.  Whatever [main] does (run a compiler or raise), every file that
    existed before it ran has the same content afterwards; every file it
    creates is a file that did not exist; and every write it makes goes to
    a file it has created with [mkstemp].  (The script has no call that
    removes a file, and it opens response files for reading only.) *)
Theorem response_files_untouched cfg args w r w' :
  main cfg args w = (r, w') →
  (∀ p content, files w !! p = Some content → files w' !! p = Some content) ∧
  ∃ evs, log w' = evs ++ log w ∧
    (∀ p fd, EvCreate p fd ∈ evs → files w !! p = None) ∧
    (∀ fd p data, EvWrite fd p data ∈ evs → ∃ fd', EvCreate p fd' ∈ evs).
Proof.
  change (main cfg args w = (r, w') → frame w w').
  destruct (is_probe args) eqn:Hp.
  - unfold main. rewrite Hp, bind_run, of_option_run.
    destruct (Shlex.split _); intros [= <- <-]; apply frame_refl.
  - rewrite main_not_probe by exact Hp.
    destruct (build_argv cfg args w) as [[body|e] w1] eqn:E;
      apply build_argv_cases in E as [F _]; now intros [= <- <-].
Qed.

Lemma response_files_untouched_witness :
  files (main (cfg_plain "-stdlib=libc++")
           ["-Wl,@link.params"; "-lstdc++"; "x.o"] world0).2 !! "link.params"
  = Some ("-la" +:+ NL +:+ LSTDCXX_LINE +:+ "-lb" +:+ NL).
Proof.
  destruct (response_files_untouched (cfg_plain "-stdlib=libc++")
              ["-Wl,@link.params"; "-lstdc++"; "x.o"] world0
              (main (cfg_plain "-stdlib=libc++")
                 ["-Wl,@link.params"; "-lstdc++"; "x.o"] world0).1
              (main (cfg_plain "-stdlib=libc++")
                 ["-Wl,@link.params"; "-lstdc++"; "x.o"] world0).2)
    as [H _].
  - reflexivity.
  - apply H. reflexivity.
Defined.

(** * Further properties of the script *)

(** ** One response file *)

Lemma flagfile_arg_inv (arg : string) :
  PyStr.startswith arg "-Wl,@" = true →
  arg = "-Wl,@" +:+ PyStr.slice_from (String.length "-Wl,@") arg.
Proof.
  unfold PyStr.startswith. intros (b & ->)%prefix_spec. reflexivity.
Qed.

Lemma first_unused_name dir suffix (fs : gmap string string) names path names' :
  first_unused dir suffix fs names = Some (path, names') →
  ∃ n, n ∈ names ∧ path = dir +:+ "tmp" +:+ n +:+ suffix ∧
       ∀ m, m ∈ names' → m ∈ names.
Proof.
  induction names as [|n names IH]; simpl; [discriminate|].
  destruct (fs !! (dir +:+ "tmp" +:+ n +:+ suffix)) eqn:E.
  - intros (m & Hm & Hp & Hs)%IH. exists m.
    split; [now apply list_elem_of_further|]. split; [exact Hp|].
    intros k Hk. now apply list_elem_of_further, Hs.
  - intros [= <- <-]. exists n. split; [apply list_elem_of_here|].
    split; [reflexivity|]. intros m Hm. now apply list_elem_of_further.
Qed.

(** What [main] does for an argument that names a response file:
    [mkstemp], then [sanitize_flagfile] under [closing_fd], then the new
    reference. *)
Lemma rewrite_arg_flagfile cfg argv in_path w :
  rewrite_arg cfg argv ("-Wl,@" +:+ in_path) w
  = match first_unused "./" ".linker-params" (files w) (candidates w) with
    | None => (Raise OSError, w)
    | Some (out, names') =>
        let fd := fresh (dom (fds w)) in
        match <[out := ""]> (files w) !! in_path with
        | None =>
            (Raise (IOError in_path),
             {| files := <[out := ""]> (files w); fds := fds w;
                candidates := names';
                log := EvClose fd :: EvCreate out fd :: log w |})
        | Some content =>
            let written := PyStr.lines content ≫= sanitize_line cfg in
            (Return (argv ++ ["-Wl,@" +:+ out]),
             {| files := <[out := PyStr.join written]> (files w);
                fds := fds w; candidates := names';
                log := EvClose fd
                       :: rev (EvWrite fd out <$> written)
                       ++ EvOpenRead in_path :: EvCreate out fd :: log w |})
        end
    end.
Proof.
  unfold rewrite_arg.
  change (String.eqb ("-Wl,@" +:+ in_path) "-lstdc++") with false.
  assert (Hw : PyStr.startswith ("-Wl,@" +:+ in_path) "-Wl,@" = true)
    by (apply prefix_spec; eauto).
  rewrite Hw.
  change (PyStr.slice_from (String.length "-Wl,@") ("-Wl,@" +:+ in_path))
    with in_path.
  cbv iota. rewrite bind_run. unfold mkstemp.
  destruct (first_unused _ _ _ _) as [[out names']|]; [|reflexivity].
  set (fd := fresh (dom (fds w))).
  assert (Hfd : fds w !! fd = None).
  { apply not_elem_of_dom. apply is_fresh. }
  rewrite bind_run. unfold closing_fd.
  rewrite (sanitize_flagfile_run cfg in_path fd out "")
    by (cbn; apply lookup_insert_eq).
  cbn [files fds candidates log].
  destruct (<[out:=""]> (files w) !! in_path) as [content|];
    cbv zeta; unfold OS.close; cbn [files fds candidates log];
    rewrite lookup_insert_eq, delete_insert_id by exact Hfd.
  - rewrite ret_run, insert_insert_eq. reflexivity.
  - reflexivity.
Qed.

Lemma sanitized_written cfg (content : string) :
  PyStr.join (PyStr.lines content ≫= sanitize_line cfg) = sanitized cfg content.
Proof.
  unfold sanitized, sanitized_lines. destruct (PyStr.str_in _ _) eqn:E.
  - now rewrite sanitize_lines_swap.
  - now rewrite sanitize_lines_drop.
Qed.

(** Every step of the loop of [main] leaves the descriptor table as it
    was and takes its names from the candidates. *)
Lemma rewrite_arg_descriptors cfg argv arg w r w' :
  rewrite_arg cfg argv arg w = (r, w') →
  fds w' = fds w ∧ ∀ n, n ∈ candidates w' → n ∈ candidates w.
Proof.
  destruct (PyStr.startswith arg "-Wl,@") eqn:Ew.
  - rewrite (flagfile_arg_inv arg Ew), rewrite_arg_flagfile.
    destruct (first_unused _ _ _ _) as [[out names']|] eqn:Ef.
    + apply first_unused_name in Ef as (n & _ & _ & Hs).
      cbv zeta. destruct (_ !! _); intros [= <- <-]; auto.
    + intros [= <- <-]. auto.
  - unfold rewrite_arg. rewrite Ew.
    destruct (String.eqb arg "-lstdc++"); [destruct (PyStr.str_in _ _)|];
      intros [= <- <-]; auto.
Qed.



(** ** The response files of a run *)

Lemma append_inj_l (a b c : string) : a +:+ b = a +:+ c → b = c.
Proof.
  induction a as [|x a IH]; [auto|].
  rewrite !append_cons. intros [= H]. auto.
Qed.

Lemma rewrite_arg_rewritten cfg argv arg w argv' w' :
  rewrite_arg cfg argv arg w = (Return argv', w') →
  ∃ b, argv' = argv ++ b ∧ arg_rewrite cfg arg b ∧
       response_file_rewritten cfg w w' arg b.
Proof.
  destruct (PyStr.startswith arg "-Wl,@") eqn:Ew.
  - assert (Hne : arg ≠ "-lstdc++") by (intros ->; discriminate).
    pose proof (flagfile_arg_inv arg Ew) as Harg.
    rewrite Harg at 1. rewrite rewrite_arg_flagfile.
    destruct (first_unused _ _ _ _) as [[out names']|] eqn:Ef; [|discriminate].
    pose proof (first_unused_None _ _ _ _ _ _ Ef) as Hnew.
    apply first_unused_name in Ef as (n & Hn & -> & _).
    fold (linker_params_path n) in *. cbv zeta.
    destruct (<[linker_params_path n:=""]> (files w) !! _)
      as [content|] eqn:Ein; [|discriminate].
    intros [= <- <-]. eexists. split; [reflexivity|].
    split; [now constructor|].
    intros in_path Hin. clear Harg. subst arg.
    change (PyStr.slice_from (String.length "-Wl,@") ("-Wl,@" +:+ in_path))
      with in_path in Ein.
    exists n. split; [exact Hn|]. split; [reflexivity|].
    split; [exact Hnew|]. cbn [files].
    rewrite lookup_insert_eq. split; [eauto|].
    intros content' Hc. f_equal.
    assert (in_path ≠ linker_params_path n) by congruence.
    rewrite lookup_insert_ne in Ein by congruence.
    rewrite Hc in Ein. injection Ein as ->. apply sanitized_written.
  - intros H. apply rewrite_arg_cases in H as [_ H].
    destruct (H _ eq_refl) as (b & Hb & ->).
    exists b. split; [reflexivity|]. split; [exact Hb|].
    intros in_path ->.
    assert (PyStr.startswith ("-Wl,@" +:+ in_path) "-Wl,@" = true)
      by (apply prefix_spec; eauto).
    congruence.
Qed.

Lemma response_file_rewritten_mono cfg w0 w w' w1 arg b :
  frame w0 w → (∀ n, n ∈ candidates w → n ∈ candidates w0) →
  frame w' w1 →
  response_file_rewritten cfg w w' arg b →
  response_file_rewritten cfg w0 w1 arg b.
Proof.
  intros [F0 _] Hc [F1 _] H in_path Harg.
  destruct (H in_path Harg) as (n & Hn & Hb & Hnew & [x Hx] & Hcontent).
  exists n. split; [auto|]. split; [exact Hb|]. split.
  { destruct (files w0 !! linker_params_path n) eqn:E; [|reflexivity].
    apply F0 in E. congruence. }
  split; [eauto|]. intros content Hin. auto.
Qed.

Lemma flagfile_refs_new cfg w w' args bs :
  Forall2 (response_file_rewritten cfg w w') args bs →
  ∀ r, r ∈ flagfile_refs args bs →
    ∃ n, r = "-Wl,@" +:+ linker_params_path n ∧
         files w !! linker_params_path n = None.
Proof.
  induction 1 as [|arg b args bs Hb _ IH]; intros r Hr; [inversion Hr|].
  cbn [flagfile_refs] in Hr. apply elem_of_app in Hr as [Hr|Hr]; [|auto].
  destruct (PyStr.startswith arg "-Wl,@") eqn:Ew; [|inversion Hr].
  destruct (Hb _ (flagfile_arg_inv arg Ew)) as (n & _ & -> & Hnew & _).
  apply list_elem_of_singleton in Hr as ->. eauto.
Qed.

Lemma rewrite_loop_rewritten cfg (args : list string) : ∀ argv w argv' w',
  for_fold args (rewrite_arg cfg) argv w = (Return argv', w') →
  ∃ bs, argv' = argv ++ concat bs ∧
        Forall2 (arg_rewrite cfg) args bs ∧
        Forall2 (response_file_rewritten cfg w w') args bs ∧
        NoDup (flagfile_refs args bs).
Proof.
  induction args as [|arg args IH]; intros argv w argv' w'.
  - intros [= <- <-]. exists []. rewrite app_nil_r.
    repeat split; constructor.
  - cbn [for_fold]. rewrite bind_run.
    destruct (rewrite_arg cfg argv arg w) as [[argv1|e] w1] eqn:E1;
      [|discriminate].
    intros E2.
    pose proof (proj1 (rewrite_arg_cases _ _ _ _ _ _ E1)) as F1.
    pose proof (proj2 (rewrite_arg_descriptors _ _ _ _ _ _ E1)) as C1.
    pose proof (proj1 (rewrite_loop _ _ _ _ _ _ E2)) as F2.
    apply rewrite_arg_rewritten in E1 as (b & -> & Hb & Rb).
    apply IH in E2 as (bs & -> & Hbs & Rbs & Nbs).
    exists (b :: bs). split; [cbn; now rewrite app_assoc|].
    split; [now constructor|]. split.
    + constructor.
      * eapply response_file_rewritten_mono;
          [apply frame_refl | auto | exact F2 | exact Rb].
      * eapply Forall2_impl; [exact Rbs|]. intros a' b' H'.
        eapply response_file_rewritten_mono;
          [exact F1 | exact C1 | apply frame_refl | exact H'].
    + cbn [flagfile_refs].
      destruct (PyStr.startswith arg "-Wl,@") eqn:Ew; [|exact Nbs].
      destruct (Rb _ (flagfile_arg_inv arg Ew)) as (n & _ & -> & _ & [x Hx] & _).
      cbn [app]. constructor; [|exact Nbs].
      intros Hin.
      destruct (flagfile_refs_new _ _ _ _ _ Rbs _ Hin) as (m & Hm & Hnew).
      apply append_inj_l in Hm. rewrite <- Hm in Hnew. congruence.
Qed.

Lemma main_rewritten cfg args w c argv w' :
  is_probe args = false →
  rewrites_args cfg args = true →
  main cfg args w = (Return (Execv c argv), w') →
  ∃ pre bs,
    argv = [c] ++ pre ++ concat bs ++ compiler_options c ∧
    Forall2 (arg_rewrite cfg) args bs ∧
    Forall2 (response_file_rewritten cfg w w') args bs ∧
    NoDup (flagfile_refs args bs).
Proof.
  intros Hp Ht Hm.
  apply main_exec in Hm as (-> & body & Hb & ->); [|exact Hp].
  unfold build_argv in Hb. rewrite Ht, bind_run, initial_argv_run in Hb.
  destruct (if _ && _ then _ else _) as [pre|e]; [|discriminate].
  apply rewrite_loop_rewritten in Hb as (bs & -> & H1 & H2 & H3).
  exists pre, bs. split; [now rewrite <- !app_assoc|]. auto.
Qed.


(** X3.  When [main] rewrites the arguments and runs the compiler, the
    references passed on for the arguments that name a response file are
    pairwise different: no new file stands for two response files, also
    when the same response file is named twice. *)
Theorem new_references_distinct cfg args w c argv w' :
  take 4 args ≠ ["-E"; "-xc++"; "-"; "-v"] →
  "-static-libstdc++" ∈ args
  ∨ PyStr.str_in "-stdlib=libc++" (envoy_cxxflags cfg) = true →
  main cfg args w = (Return (Execv c argv), w') →
  ∃ pre bs,
    argv = [c] ++ pre ++ concat bs ++ compiler_options c ∧
    Forall2 (arg_rewrite cfg) args bs ∧
    NoDup (flagfile_refs args bs).
Proof.
  intros Hp%is_probe_false Ht%rewrites_args_true Hm.
  destruct (main_rewritten _ _ _ _ _ _ Hp Ht Hm) as (pre & bs & H1 & H2 & _ & H3).
  exists pre, bs. auto.
Qed.


Lemma new_references_distinct_witness :
  ∃ pre bs,
    ["/usr/bin/c++"; "-static-libstdc++"; "-Wl,@./tmpx1.linker-params";
     "-Wl,@./tmpx2.linker-params"]
    = ["/usr/bin/c++"] ++ pre ++ concat bs ++ compiler_options "/usr/bin/c++" ∧
    NoDup (flagfile_refs
             ["-static-libstdc++"; "-Wl,@a.params"; "-Wl,@a.params"] bs).
Proof.
  destruct (new_references_distinct (cfg_plain "")
              ["-static-libstdc++"; "-Wl,@a.params"; "-Wl,@a.params"]
              world_two_params "/usr/bin/c++"
              ["/usr/bin/c++"; "-static-libstdc++";
               "-Wl,@./tmpx1.linker-params"; "-Wl,@./tmpx2.linker-params"]
              (main (cfg_plain "")
                 ["-static-libstdc++"; "-Wl,@a.params"; "-Wl,@a.params"]
                 world_two_params).2)
    as (pre & bs & H1 & _ & H2).
  - discriminate.
  - left. apply list_elem_of_here.
  - reflexivity.
  - exists pre, bs. split; [exact H1 | exact H2].
Defined.

(** ** Errors *)




(** X5.  C++ flags that [shlex.split] cannot split (a quotation that is
    not closed, a backslash at the end) make [main] raise [ValueError]
    before it touches any file, whenever it needs the tokens: for the
    probe, and when the arguments are rewritten and one of them contains
    [-std=c++]. *)
Theorem unsplittable_cxxflags cfg args w :
  Shlex.split (envoy_cxxflags cfg) = None →
  take 4 args = ["-E"; "-xc++"; "-"; "-v"]
  ∨ (("-static-libstdc++" ∈ args
      ∨ PyStr.str_in "-stdlib=libc++" (envoy_cxxflags cfg) = true)
     ∧ ∃ a, a ∈ args ∧ PyStr.str_in "-std=c++" a = true) →
  main cfg args w = (Raise ValueError, w).
Proof.
  intros Hs Hc.
  assert (Hprobe : is_probe args = true → main cfg args w = (Raise ValueError, w)).
  { intros Hp. unfold main. now rewrite Hp, bind_run, of_option_run, Hs. }
  destruct (is_probe args) eqn:Hp; [auto|].
  destruct Hc as [Hc%is_probe_true|[Ht%rewrites_args_true Ha%existsb_elem_of]];
    [congruence|].
  rewrite main_not_probe by exact Hp. unfold build_argv.
  rewrite Ht, bind_run, initial_argv_run, Ha, Hs.
  destruct (envoy_cxxflags cfg); [discriminate Hs | reflexivity].
Qed.

Lemma unsplittable_cxxflags_witness :
  main (cfg_gcc "-DNAME='a b") ["-static-libstdc++"; "-std=c++14"; "-Wl,@a.params"]
    world_two_params
  = (Raise ValueError, world_two_params).
Proof.
  apply (unsplittable_cxxflags (cfg_gcc "-DNAME='a b")
           ["-static-libstdc++"; "-std=c++14"; "-Wl,@a.params"]).
  - reflexivity.
  - right. split; [left; apply list_elem_of_here|].
    exists "-std=c++14". split; [|reflexivity].
    apply list_elem_of_further, list_elem_of_here.
Defined.





(** ** The tokens of the C++ flags *)

Lemma lex_word_chars (u : string) : ∀ quoted token rest,
  plain_flag_chars u = true →
  Shlex.lex Shlex.InWord quoted token (u +:+ rest)
  = Shlex.lex Shlex.InWord quoted (token +:+ u) rest.
Proof.
  induction u as [|c u IH]; intros quoted token rest Hu.
  - now rewrite append_empty_l, append_empty_r.
  - cbn [plain_flag_chars] in Hu. apply andb_true_iff in Hu as [Hc Hu].
    unfold plain_flag_char in Hc.
    apply andb_true_iff in Hc as [[Hw Hq]%andb_true_iff He].
    apply negb_true_iff in Hw, Hq, He.
    rewrite append_cons. cbn [Shlex.lex]. rewrite Hw, Hq, He.
    rewrite IH by exact Hu. unfold Shlex.push.
    now rewrite append_assoc.
Qed.

Lemma lex_plain_flag (f rest : string) :
  plain_flag f = true →
  Shlex.lex Shlex.InSpace false "" (f +:+ rest)
  = Shlex.lex Shlex.InWord false f rest.
Proof.
  unfold plain_flag. intros [Ht Hf]%andb_true_iff.
  destruct f as [|c u]; [discriminate|].
  cbn [plain_flag_chars] in Hf. apply andb_true_iff in Hf as [Hc Hu].
  unfold plain_flag_char in Hc.
  apply andb_true_iff in Hc as [[Hw Hq]%andb_true_iff He].
  apply negb_true_iff in Hw, Hq, He.
  rewrite append_cons. cbn [Shlex.lex]. rewrite Hw, Hq, He.
  now rewrite lex_word_chars.
Qed.

(** [shlex.split] gives back flags written with a space in between. *)
Lemma split_space_separated (flags : list string) :
  Forall (λ f, plain_flag f = true) flags →
  Shlex.split (space_separated flags) = Some flags.
Proof.
  unfold Shlex.split.
  induction 1 as [|f flags Hf Hfs IH]; [reflexivity|].
  assert (Ht : PyStr.truthy f = true).
  { unfold plain_flag in Hf. now apply andb_true_iff in Hf as [? _]. }
  destruct flags as [|g flags].
  - cbn [space_separated]. rewrite <- (append_empty_r f) at 1.
    rewrite lex_plain_flag by exact Hf. cbn [Shlex.lex]. now rewrite Ht.
  - change (space_separated (f :: g :: flags))
      with (f +:+ " " +:+ space_separated (g :: flags)).
    rewrite lex_plain_flag by exact Hf.
    change (" " +:+ space_separated (g :: flags))
      with (String " "%char (space_separated (g :: flags))).
    cbn [Shlex.lex].
    change (Shlex.is_whitespace " "%char) with true. cbv iota.
    now rewrite Ht, IH.
Qed.

(** X7.  When the C++ flags are flags without white space, quote or
    backslash, written with one space in between, the probe is passed on
    to the C++ compiler with exactly these flags after the arguments, in
    their order. *)
Theorem probe_gets_flags cfg args flags w :
  take 4 args = ["-E"; "-xc++"; "-"; "-v"] →
  Forall (λ f, plain_flag f = true) flags →
  envoy_cxxflags cfg = space_separated flags →
  main cfg args w
  = (Return (Execv (envoy_real_cxx cfg)
               ([envoy_real_cxx cfg] ++ args ++ flags)), w).
Proof.
  intros Hp%is_probe_true Hf Hc. unfold main.
  now rewrite Hp, bind_run, of_option_run, Hc, split_space_separated.
Qed.

Lemma probe_gets_flags_witness :
  main (cfg_gcc "-stdlib=libc++ -O2 -DNDEBUG")
    ["-E"; "-xc++"; "-"; "-v"] world0
  = (Return (Execv "/usr/bin/g++"
               ["/usr/bin/g++"; "-E"; "-xc++"; "-"; "-v";
                "-stdlib=libc++"; "-O2"; "-DNDEBUG"]), world0).
Proof.
  apply (probe_gets_flags (cfg_gcc "-stdlib=libc++ -O2 -DNDEBUG")
           ["-E"; "-xc++"; "-"; "-v"] ["-stdlib=libc++"; "-O2"; "-DNDEBUG"]).
  - reflexivity.
  - repeat constructor.
  - reflexivity.
Defined.

(** ** Runs that reach the compiler *)







(** ** The lines of a sanitized file *)

Lemma lines_one_line (l : string) : one_line l = true → PyStr.lines l = [l].
Proof.
  induction l as [|c l IH]; [discriminate|].
  destruct l as [|d l].
  - intros _. cbn. now destruct (Ascii.eqb c PyStr.LF).
  - cbn [one_line]. intros [Hc Hl]%andb_true_iff.
    apply negb_true_iff in Hc. cbn [PyStr.lines] in *.
    rewrite Hc. now rewrite (IH Hl).
Qed.

Lemma lines_not_nil (c : ascii) (s : string) : PyStr.lines (String c s) ≠ [].
Proof.
  cbn [PyStr.lines]. destruct (Ascii.eqb c PyStr.LF); [discriminate|].
  now destruct (PyStr.lines s).
Qed.

(** The lines of a text that follows a line feed do not depend on what is
    before the line feed. *)
Lemma lines_app (a b : string) :
  ends_with_line_feed a = true →
  PyStr.lines (a +:+ b) = PyStr.lines a ++ PyStr.lines b.
Proof.
  induction a as [|c a IH]; [discriminate|].
  destruct a as [|d a].
  - cbn [ends_with_line_feed]. intros Hc.
    rewrite append_cons, append_empty_l. cbn [PyStr.lines]. now rewrite Hc.
  - intros Ha. specialize (IH Ha).
    rewrite append_cons.
    change (PyStr.lines (String c (String d a +:+ b)))
      with (if Ascii.eqb c PyStr.LF
            then String c EmptyString :: PyStr.lines (String d a +:+ b)
            else match PyStr.lines (String d a +:+ b) with
                 | [] => [String c EmptyString]
                 | l :: ls => String c l :: ls
                 end).
    change (PyStr.lines (String c (String d a)))
      with (if Ascii.eqb c PyStr.LF
            then String c EmptyString :: PyStr.lines (String d a)
            else match PyStr.lines (String d a) with
                 | [] => [String c EmptyString]
                 | l :: ls => String c l :: ls
                 end).
    rewrite IH. destruct (Ascii.eqb c PyStr.LF); [reflexivity|].
    pose proof (lines_not_nil d a).
    now destruct (PyStr.lines (String d a)).
Qed.

Lemma lines_well_formed (content : string) :
  well_formed_lines (PyStr.lines content).
Proof.
  induction content as [|c s IH]; [exact I|].
  cbn [PyStr.lines]. destruct (Ascii.eqb c PyStr.LF) eqn:Ec.
  - cbn [well_formed_lines one_line ends_with_line_feed]. auto.
  - destruct (PyStr.lines s) as [|l ls]; [cbn; auto|].
    destruct IH as (Hl & Hlast & Hls).
    destruct l as [|d l]; [discriminate|].
    cbn [well_formed_lines]. split; [cbn [one_line]; now rewrite Ec|].
    split; [exact Hlast | exact Hls].
Qed.

(** Lines put one after the other are read back as they are. *)
Lemma lines_join_inv (ls : list string) :
  well_formed_lines ls → PyStr.lines (PyStr.join ls) = ls.
Proof.
  induction ls as [|l ls IH]; [reflexivity|].
  intros (Hl & Hlast & Hls). cbn [PyStr.join].
  destruct Hlast as [->|Hend].
  - cbn [PyStr.join]. rewrite append_empty_r. now apply lines_one_line.
  - rewrite lines_app by exact Hend.
    now rewrite lines_one_line, IH.
Qed.

Lemma sanitized_lines_well_formed cfg (ls : list string) :
  well_formed_lines ls → well_formed_lines (sanitized_lines cfg ls).
Proof.
  unfold sanitized_lines. destruct (PyStr.str_in _ _).
  - induction ls as [|l ls IH]; [auto|].
    intros (Hl & Hlast & Hls). rewrite fmap_cons.
    split; [|split; [|auto]].
    + now destruct (decide _).
    + destruct Hlast as [->|Hend]; [now left | right].
      now destruct (decide _).
  - induction ls as [|l ls IH]; [auto|].
    intros (Hl & Hlast & Hls).
    destruct (decide (l = LSTDCXX_LINE)) as [->|Hne].
    + rewrite filter_cons_False by auto. auto.
    + rewrite filter_cons_True by auto.
      split; [exact Hl|]. split; [|auto].
      destruct Hlast as [->|Hend]; [now left | now right].
Qed.

Lemma sanitized_lines_no_lstdcxx cfg (ls : list string) :
  Forall (λ l, l ≠ LSTDCXX_LINE) (sanitized_lines cfg ls).
Proof.
  unfold sanitized_lines. destruct (PyStr.str_in _ _).
  - apply Forall_fmap, Forall_forall. intros l _. cbn.
    destruct (decide _); [discriminate | assumption].
  - apply Forall_forall. now intros l [H _]%list_elem_of_filter.
Qed.

Lemma sanitized_lines_fixed cfg (ls : list string) :
  Forall (λ l, l ≠ LSTDCXX_LINE) ls → sanitized_lines cfg ls = ls.
Proof.
  unfold sanitized_lines. destruct (PyStr.str_in _ _).
  - induction 1 as [|l ls Hl _ IH]; [reflexivity|].
    rewrite fmap_cons, IH. now rewrite decide_False.
  - induction 1 as [|l ls Hl _ IH]; [reflexivity|].
    now rewrite filter_cons_True, IH.
Qed.

Lemma lines_sanitized cfg (content : string) :
  PyStr.lines (sanitized cfg content)
  = sanitized_lines cfg (PyStr.lines content).
Proof.
  unfold sanitized.
  apply lines_join_inv, sanitized_lines_well_formed, lines_well_formed.
Qed.

Lemma sanitize_flagfile_new_file cfg in_path fd out content w :
  files w !! in_path = Some content →
  fds w !! fd = Some out →
  files w !! out = Some "" →
  ∃ w', sanitize_flagfile cfg in_path fd w = (Return tt, w') ∧
        files w' = <[out := sanitized cfg content]> (files w) ∧
        fds w' = fds w.
Proof.
  intros Hin Hfd Hout.
  rewrite (sanitize_flagfile_run cfg in_path fd out "") by assumption.
  rewrite Hin. cbv zeta. eexists. split; [reflexivity|].
  cbn [files fds]. now rewrite append_empty_l, sanitized_written.
Qed.

(** X9.  The file [sanitize_flagfile] writes from a response file into a
    new, empty file has no line equal to [-lstdc++] followed by a line
    feed, whatever the response file holds. *)
Theorem sanitized_file_without_lstdcxx_line cfg in_path out_fd out content w :
  files w !! in_path = Some content →
  fds w !! out_fd = Some out →
  files w !! out = Some "" →
  out ≠ in_path →
  ∃ w' written,
    sanitize_flagfile cfg in_path out_fd w = (Return tt, w') ∧
    files w' !! out = Some written ∧
    Forall (λ l, l ≠ LSTDCXX_LINE) (PyStr.lines written).
Proof.
  intros Hin Hfd Hout _.
  destruct (sanitize_flagfile_new_file cfg _ _ _ _ _ Hin Hfd Hout)
    as (w' & Hrun & Hfiles & _).
  exists w', (sanitized cfg content). split; [exact Hrun|].
  split; [rewrite Hfiles; apply lookup_insert_eq|].
  rewrite lines_sanitized. apply sanitized_lines_no_lstdcxx.
Qed.

Lemma sanitized_file_without_lstdcxx_line_witness :
  ∃ w' written,
    sanitize_flagfile (cfg_plain "-stdlib=libc++") "link.params" 3 world_params
    = (Return tt, w') ∧
    files w' !! "out.params" = Some written ∧
    Forall (λ l, l ≠ LSTDCXX_LINE) (PyStr.lines written).
Proof.
  apply (sanitized_file_without_lstdcxx_line (cfg_plain "-stdlib=libc++")
           "link.params" 3 "out.params"
           ("-la" +:+ NL +:+ LSTDCXX_LINE +:+ "-lb" +:+ NL) world_params).
  - reflexivity.
  - reflexivity.
  - reflexivity.
  - discriminate.
Defined.

(** X10.  Sanitizing is idempotent: when the file [sanitize_flagfile] has
    written into a new, empty file is sanitized in turn into another
    empty file, the second copy has the content of the first. *)
Theorem sanitize_flagfile_idempotent cfg in_path fd1 out1 fd2 out2 content w :
  files w !! in_path = Some content →
  fds w !! fd1 = Some out1 →
  fds w !! fd2 = Some out2 →
  files w !! out1 = Some "" →
  files w !! out2 = Some "" →
  out1 ≠ in_path → out2 ≠ in_path → out1 ≠ out2 →
  ∃ w',
    (sanitize_flagfile cfg in_path fd1;; sanitize_flagfile cfg out1 fd2) w
    = (Return tt, w') ∧
    files w' !! out1 = Some (sanitized cfg content) ∧
    files w' !! out2 = Some (sanitized cfg content).
Proof.
  intros Hin Hfd1 Hfd2 Hout1 Hout2 Hne1 Hne2 Hne.
  destruct (sanitize_flagfile_new_file cfg _ _ _ _ _ Hin Hfd1 Hout1)
    as (w1 & Hrun1 & Hfiles1 & Hfds1).
  destruct (sanitize_flagfile_new_file cfg out1 fd2 out2
              (sanitized cfg content) w1)
    as (w2 & Hrun2 & Hfiles2 & _).
  { rewrite Hfiles1. apply lookup_insert_eq. }
  { now rewrite Hfds1. }
  { rewrite Hfiles1. now rewrite lookup_insert_ne. }
  exists w2. rewrite bind_run, Hrun1. split; [exact Hrun2|].
  rewrite Hfiles2, Hfiles1. split.
  - rewrite lookup_insert_ne by congruence. apply lookup_insert_eq.
  - rewrite lookup_insert_eq. f_equal.
    unfold sanitized at 1. rewrite lines_sanitized.
    rewrite sanitized_lines_fixed by apply sanitized_lines_no_lstdcxx.
    reflexivity.
Qed.

(** X11.  Only a line that ends with a line feed is dropped or replaced:
    when the response file ends with [-lstdc++] without a line feed,
    after nothing or after a line feed, that last line is written as it
    is, whether the C++ flags contain [-stdlib=libc++] or not. *)
Theorem unterminated_lstdcxx_kept cfg in_path out_fd out body w :
  files w !! in_path = Some (body +:+ "-lstdc++") →
  body = "" ∨ ends_with_line_feed body = true →
  fds w !! out_fd = Some out →
  files w !! out = Some "" →
  out ≠ in_path →
  ∃ w',
    sanitize_flagfile cfg in_path out_fd w = (Return tt, w') ∧
    files w' !! out = Some (sanitized cfg body +:+ "-lstdc++").
Proof.
  intros Hin Hbody Hfd Hout _.
  destruct (sanitize_flagfile_new_file cfg _ _ _ _ _ Hin Hfd Hout)
    as (w' & Hrun & Hfiles & _).
  exists w'. split; [exact Hrun|].
  rewrite Hfiles, lookup_insert_eq. f_equal.
  assert (Hlast : ∀ ls, sanitized_lines cfg (ls ++ ["-lstdc++"])
                        = sanitized_lines cfg ls ++ ["-lstdc++"]).
  { intros ls. unfold sanitized_lines. destruct (PyStr.str_in _ _).
    - now rewrite fmap_app.
    - now rewrite filter_app. }
  unfold sanitized. destruct Hbody as [->|Hend].
  - rewrite append_empty_l.
    change (PyStr.lines "-lstdc++") with ([] ++ ["-lstdc++"]).
    rewrite Hlast, join_app. reflexivity.
  - rewrite lines_app by exact Hend.
    change (PyStr.lines "-lstdc++") with ["-lstdc++"].
    rewrite Hlast, join_app. reflexivity.
Qed.

Lemma sanitize_flagfile_idempotent_witness :
  ∃ w',
    (sanitize_flagfile (cfg_plain "") "in.params" 3;;
     sanitize_flagfile (cfg_plain "") "one.params" 4) world_copies
    = (Return tt, w') ∧
    files w' !! "one.params" = Some ("-la" +:+ NL +:+ "-lstdc++") ∧
    files w' !! "two.params" = Some ("-la" +:+ NL +:+ "-lstdc++").
Proof.
  apply (sanitize_flagfile_idempotent (cfg_plain "") "in.params"
           3 "one.params" 4 "two.params"
           ("-la" +:+ NL +:+ LSTDCXX_LINE +:+ "-lstdc++") world_copies).
  - reflexivity.
  - reflexivity.
  - reflexivity.
  - reflexivity.
  - reflexivity.
  - discriminate.
  - discriminate.
  - discriminate.
Defined.

Lemma unterminated_lstdcxx_kept_witness :
  ∃ w',
    sanitize_flagfile (cfg_plain "-stdlib=libc++") "in.params" 3 world_copies
    = (Return tt, w') ∧
    files w' !! "one.params"
    = Some ("-la" +:+ NL +:+ "-lc++" +:+ NL +:+ "-lstdc++").
Proof.
  apply (unterminated_lstdcxx_kept (cfg_plain "-stdlib=libc++") "in.params"
           3 "one.params" ("-la" +:+ NL +:+ LSTDCXX_LINE) world_copies).
  - reflexivity.
  - right. reflexivity.
  - reflexivity.
  - reflexivity.
  - discriminate.
Defined.

(** ** Runs without response files *)

Lemma rewrite_loop_pure cfg (args : list string) :
  Forall (λ a, PyStr.startswith a "-Wl,@" = false) args →
  ∀ argv w,
    for_fold args (rewrite_arg cfg) argv w
    = (Return (argv ++ (args ≫= swap_or_drop cfg)), w).
Proof.
  induction 1 as [|arg args Ha _ IH]; intros argv w.
  - cbn. now rewrite app_nil_r.
  - cbn [for_fold]. rewrite bind_run, bind_cons.
    unfold rewrite_arg at 1, swap_or_drop at 1. rewrite Ha.
    destruct (String.eqb_spec arg "-lstdc++") as [->|Hne].
    + rewrite decide_True by reflexivity.
      destruct (PyStr.str_in _ _); rewrite ret_run, IH.
      * now rewrite <- app_assoc.
      * reflexivity.
    + rewrite decide_False by exact Hne.
      rewrite ret_run, IH. now rewrite <- app_assoc.
Qed.

(** X12.  When the arguments are rewritten and none of them names a
    response file, [main] touches no file and the list passed on is, in
    this order: the compiler; the tokens [flags] of the C++ flags if the
    C++ flags are not empty and an argument contains [-std=c++]; the
    arguments, each [-lstdc++] replaced by [-lc++] if the C++ flags
    contain [-stdlib=libc++] and left out otherwise; the options of the
    compiler. *)
Theorem rewritten_arguments_exact cfg args flags w :
  take 4 args ≠ ["-E"; "-xc++"; "-"; "-v"] →
  "-static-libstdc++" ∈ args
  ∨ PyStr.str_in "-stdlib=libc++" (envoy_cxxflags cfg) = true →
  Forall (λ a, PyStr.startswith a "-Wl,@" = false) args →
  Shlex.split (envoy_cxxflags cfg) = Some flags →
  main cfg args w
  = (Return
       (Execv (select_compiler cfg args)
          ([select_compiler cfg args]
           ++ (if PyStr.truthy (envoy_cxxflags cfg)
                  && existsb (PyStr.str_in "-std=c++") args
               then flags else [])
           ++ (args ≫= swap_or_drop cfg)
           ++ compiler_options (select_compiler cfg args))), w).
Proof.
  intros Hp%is_probe_false Ht%rewrites_args_true Hargs Hs.
  rewrite main_not_probe by exact Hp. unfold build_argv.
  rewrite Ht, bind_run, initial_argv_run, Hs.
  destruct (_ && _); rewrite rewrite_loop_pure by exact Hargs;
    now rewrite <- !app_assoc.
Qed.

Lemma rewritten_arguments_exact_witness :
  main (cfg_gcc "-stdlib=libc++ -O2")
    ["-std=c++14"; "a.o"; "-lstdc++"; "-lm"; "-lstdc++"] world0
  = (Return
       (Execv "/usr/bin/gcc"
          ["/usr/bin/gcc"; "-stdlib=libc++"; "-O2"; "-std=c++14"; "a.o";
           "-lc++"; "-lm"; "-lc++"; "-Wno-maybe-uninitialized"]), world0).
Proof.
  apply (rewritten_arguments_exact (cfg_gcc "-stdlib=libc++ -O2")
           ["-std=c++14"; "a.o"; "-lstdc++"; "-lm"; "-lstdc++"]
           ["-stdlib=libc++"; "-O2"] world0).
  - discriminate.
  - right. reflexivity.
  - repeat constructor.
  - reflexivity.
Defined.
